(** * pin-it: the voting-session lifecycle of [bot.py]

    A shallow embedding of [src/bot.py]: the [VotingSession] dataclass, the
    [PinBot] client state (session table, per-channel pin cooldown) and its
    event handlers, followed by the properties of the written specification
    checked against that embedding.

    Conventions.
    - Python [int] is [Z]; Python [float] is Rocq's primitive binary64
      [float], so every clock comparison is the one the interpreter makes.
    - [Set[int]] is [gset Z], [Dict[int, _]] is [gmap Z _].
    - A coroutine is a function of the bot state that returns its result,
      the new state and the list of effects it performed, in order.  The
      answers of the platform (clock reading, fetched message, outcome of a
      pin or of a reaction) are read from a [Platform] record given to each
      handler run.  Handlers are run one after the other: interleavings at
      [await] points are outside this model. *)

From Stdlib Require Import ZArith String List Floats DecimalString.
From stdpp Require Import gmap strings list pretty.

Open Scope string_scope.
Open Scope list_scope.
Open Scope Z_scope.

(** ** Messages and voting sessions *)

(** The fields of [discord.Message] that [bot.py] reads. *)
Record Message := {
  message_id : Z;              (* message.id *)
  author : Z;                  (* message.author, compared by user id *)
  content : string;            (* message.content *)
  reference : option Z;        (* message.reference.message_id, None when no reply *)
  channel_id : Z;              (* message.channel.id *)
  created_at : float           (* message.created_at.timestamp() *)
}.

(** [@dataclass class VotingSession] *)
Record VotingSession := {
  target_message : Message;
  votes : gset Z;
  vote_count : Z
}.

(** [VotingSession(target_message=t)]: the field defaults. *)
Definition new_session (t : Message) : VotingSession :=
  {| target_message := t; votes := ∅; vote_count := 0 |}.

(** [VotingSession.add_vote]: the returned flag and the mutated object. *)
Definition add_vote (user_id : Z) (s : VotingSession) : bool * VotingSession :=
  if decide (user_id ∉ votes s) then
    (true, {| target_message := target_message s;
              votes := votes s ∪ {[user_id]};
              vote_count := vote_count s + 1 |})
  else (false, s).

(** [VotingSession.remove_vote] *)
Definition remove_vote (user_id : Z) (s : VotingSession) : bool * VotingSession :=
  if decide (user_id ∈ votes s) then
    (true, {| target_message := target_message s;
              votes := votes s ∖ {[user_id]};
              vote_count := vote_count s - 1 |})
  else (false, s).

(** A call on a session, and the sessions seen after each call of a sequence. *)
Inductive VoteOp := AddVote (user_id : Z) | RemoveVote (user_id : Z).

Definition apply_op (o : VoteOp) (s : VotingSession) : VotingSession :=
  match o with
  | AddVote u => (add_vote u s).2
  | RemoveVote u => (remove_vote u s).2
  end.

Fixpoint session_history (ops : list VoteOp) (s : VotingSession) : list VotingSession :=
  match ops with
  | [] => []
  | o :: ops => apply_op o s :: session_history ops (apply_op o s)
  end.

(** The cached count agrees with the set. *)
Definition count_coherent (s : VotingSession) : Prop :=
  vote_count s = Z.of_nat (size (votes s)).

(** ** Effects, platform answers and the bot state *)

(** The lines [bot.py] writes to its logger, by call site. *)
Inductive LogLine :=
| LogCleanedUp (msg_id : Z)                       (* info, periodic_cleanup *)
| LogReactionFailed (emoji : string)              (* warning, on_message *)
| LogHttpError                                    (* error, on_message *)
| LogRateLimited (channel : Z)                    (* warning, pin_message_safely *)
| LogPinned (msg_id : Z)                          (* info, pin_message_safely *)
| LogPinFailed (msg_id : Z)                       (* error, pin_message_safely *)
| LogVoteAdded (user_id msg_id count : Z)         (* info, on_reaction_add *)
| LogVoteRemoved (user_id msg_id count : Z).      (* info, on_reaction_remove *)

(** What a handler does besides changing the bot state, in program order. *)
Inductive Effect :=
| LockAcquire                                     (* entering [async with self.session_lock] *)
| LockRelease                                     (* leaving it, on every exit path *)
| FetchMessage (msg_id : Z)                       (* message.channel.fetch_message(..) *)
| PinMessage (m : Message)                        (* message.pin() *)
| AddReaction (msg_id : Z) (emoji : string)       (* message.add_reaction(emoji) *)
| Reply (msg_id : Z) (text : string)              (* message.reply(text, delete_after=10) *)
| Log (l : LogLine).

(** How [fetch_message] ends: a message, [discord.NotFound], or another
    [discord.HTTPException]. *)
Inductive FetchResult :=
| Fetched (m : Message)
| FetchNotFound
| FetchHTTPException.

(** The platform's answers during one handler run.  [pin m = false] and
    [add_reaction e = false] stand for the call raising
    [discord.HTTPException]. *)
Record Platform := {
  loop_time : float;                              (* asyncio.get_event_loop().time() *)
  fetch_message : Z → FetchResult;
  pin : Message → bool;
  add_reaction : string → bool
}.

(** The attributes of [PinBot] that the handlers read or write.  [user] is
    the id of [self.user]. *)
Record PinBot := {
  confirm_cap : Z;
  user : Z;
  voting_sessions : gmap Z VotingSession;
  pin_cooldown : gmap Z float;
  PIN_COOLDOWN_SECONDS : float
}.

(** [PinBot.__init__] *)
Definition PinBot_init (cap : Z) (self_user : Z) : PinBot :=
  {| confirm_cap := cap; user := self_user;
     voting_sessions := ∅; pin_cooldown := ∅;
     PIN_COOLDOWN_SECONDS := 5%float |}.

Definition set_sessions (f : gmap Z VotingSession → gmap Z VotingSession) (b : PinBot) : PinBot :=
  {| confirm_cap := confirm_cap b; user := user b;
     voting_sessions := f (voting_sessions b); pin_cooldown := pin_cooldown b;
     PIN_COOLDOWN_SECONDS := PIN_COOLDOWN_SECONDS b |}.

Definition set_cooldown (f : gmap Z float → gmap Z float) (b : PinBot) : PinBot :=
  {| confirm_cap := confirm_cap b; user := user b;
     voting_sessions := voting_sessions b; pin_cooldown := f (pin_cooldown b);
     PIN_COOLDOWN_SECONDS := PIN_COOLDOWN_SECONDS b |}.

(** *** The handler monad: bot state threaded, effects appended *)

Module Run.

Definition M (A : Type) : Type := PinBot → A * PinBot * list Effect.

Definition ret {A} (a : A) : M A := λ b, (a, b, []).

Definition bind {A B} (m : M A) (k : A → M B) : M B :=
  λ b, let '(a, b1, t1) := m b in
       let '(r, b2, t2) := k a b1 in
       (r, b2, t1 ++ t2).

Definition get : M PinBot := λ b, (b, b, []).
Definition modify (f : PinBot → PinBot) : M unit := λ b, (tt, f b, []).
Definition emit (e : Effect) : M unit := λ b, (tt, b, [e]).

(** [async with self.session_lock: body] *)
Definition with_lock {A} (body : M A) : M A :=
  bind (emit LockAcquire) (λ _,
  bind body (λ a,
  bind (emit LockRelease) (λ _, ret a))).

(** [for x in xs: body x] *)
Fixpoint for_each {X} (xs : list X) (body : X → M unit) : M unit :=
  match xs with
  | [] => ret tt
  | x :: xs => bind (body x) (λ _, for_each xs body)
  end.

Definition result {A} (r : A * PinBot * list Effect) : A := r.1.1.
Definition state {A} (r : A * PinBot * list Effect) : PinBot := r.1.2.
Definition trace {A} (r : A * PinBot * list Effect) : list Effect := r.2.

End Run.

Import Run.

Declare Scope run_scope.
Delimit Scope run_scope with run.
Notation "'let*' x := m 'in' k" := (bind m (λ x, k))
  (at level 10, x binder, m at level 100, k at level 200) : run_scope.
Notation "m ;;; k" := (bind m (λ _, k))
  (at level 100, k at level 200, right associativity) : run_scope.
Open Scope run_scope.

(** ** The handlers of [PinBot] *)

(** [self.number_emojis] *)
Definition number_emojis : list string :=
  [ "<:pixel1:942438227380408350>"; "<:pixel2:942438227258785802>";
    "<:pixel3:942438227585957968>"; "<:pixel4:942438227107786804>";
    "<:pixel5:942438227623702589>"; "<:pixel6:942438227330089060>";
    "<:pixel7:942438227476901958>"; "<:pixel8:942438227002949652>";
    "<:pixel9:942438227405602906>"; "<:pixel10:942438227825029160>" ].

(** [PinBot.get_number_emoji] *)
Definition get_number_emoji (num : Z) : string :=
  if (1 <=? num) && (num <=? 10)
  then default "❓" (number_emojis !! Z.to_nat (num - 1))
  else "❓".

Definition approve_emoji : string := "✅".

(** [self.pin_cooldown[channel]] on a [defaultdict(float)]: a missing key
    reads as [0.0] and is inserted by the read. *)
Definition read_cooldown (channel : Z) : M float :=
  let* b := get in
  let last := default 0%float (pin_cooldown b !! channel) in
  modify (set_cooldown <[channel := last]>) ;;;
  ret last.

(** [PinBot.pin_message_safely] *)
Definition pin_message_safely (P : Platform) (message : Message) : M bool :=
  let current_time := loop_time P in
  let channel := channel_id message in
  let* b := get in
  let* last := read_cooldown channel in
  if (current_time - last <? PIN_COOLDOWN_SECONDS b)%float then
    emit (Log (LogRateLimited channel)) ;;;
    ret false
  else
    emit (PinMessage message) ;;;
    if pin P message then
      modify (set_cooldown <[channel := current_time]>) ;;;
      emit (Log (LogPinned (message_id message))) ;;;
      ret true
    else
      emit (Log (LogPinFailed (message_id message))) ;;;
      ret false.

(** The test [content.startswith(f"<@{id}>") or content.startswith(f"<@!{id}>")] *)
Definition mentions_bot_first (bot_id : Z) (text : string) : bool :=
  String.prefix ("<@" +:+ pretty bot_id +:+ ">") text
  || String.prefix ("<@!" +:+ pretty bot_id +:+ ">") text.

(** [PinBot.on_message] *)
Definition on_message (P : Platform) (message : Message) : M unit :=
  let* b := get in
  if bool_decide (author message = user b) || bool_decide (reference message = None)
  then ret tt
  else if negb (mentions_bot_first (user b) (content message)) then ret tt
  else
    match reference message with
    | None => ret tt                       (* excluded by the first test *)
    | Some ref =>
      emit (FetchMessage ref) ;;;
      match fetch_message P ref with
      | Fetched target =>
        if confirm_cap b =? 0 then
          let* _ := pin_message_safely P target in
          ret tt
        else
          with_lock
            (modify (set_sessions <[message_id message := new_session target]>)) ;;;
          for_each
            [ approve_emoji; "<:slash:1284496769551568927>";
              get_number_emoji (confirm_cap b) ]
            (λ emoji,
               emit (AddReaction (message_id message) emoji) ;;;
               if add_reaction P emoji then ret tt
               else emit (Log (LogReactionFailed emoji)))
      | FetchNotFound =>
        emit (Reply (message_id message) "❌ Referenced message not found!")
      | FetchHTTPException =>
        emit (Log LogHttpError) ;;;
        emit (Reply (message_id message)
                "❌ An error occurred while processing your request.")
      end
  end.

(** The fields of [discord.Reaction] that the handlers read. *)
Record Reaction := {
  emoji : string;              (* str(reaction.emoji) *)
  reaction_message : Z         (* reaction.message.id *)
}.

(** [PinBot.on_reaction_add] *)
Definition on_reaction_add (P : Platform) (reaction : Reaction) (user_id : Z) : M unit :=
  let* b := get in
  if bool_decide (user_id = user b) || negb (String.eqb (emoji reaction) approve_emoji)
  then ret tt
  else
    let msg_id := reaction_message reaction in
    with_lock
      (let* b := get in
       match voting_sessions b !! msg_id with
       | None => ret tt
       | Some session =>
         let '(added, session) := add_vote user_id session in
         modify (set_sessions <[msg_id := session]>) ;;;
         if added then
           emit (Log (LogVoteAdded user_id msg_id (vote_count session))) ;;;
           if confirm_cap b <=? vote_count session then
             let* success := pin_message_safely P (target_message session) in
             if success then modify (set_sessions (delete msg_id))
             else ret tt
           else ret tt
         else ret tt
       end).

(** [PinBot.on_reaction_remove] *)
Definition on_reaction_remove (reaction : Reaction) (user_id : Z) : M unit :=
  let* b := get in
  if bool_decide (user_id = user b) || negb (String.eqb (emoji reaction) approve_emoji)
  then ret tt
  else
    let msg_id := reaction_message reaction in
    with_lock
      (let* b := get in
       match voting_sessions b !! msg_id with
       | None => ret tt
       | Some session =>
         let '(removed, session) := remove_vote user_id session in
         modify (set_sessions <[msg_id := session]>) ;;;
         if removed then
           emit (Log (LogVoteRemoved user_id msg_id (vote_count session)))
         else ret tt
       end).

(** The age test of [periodic_cleanup]:
    [current_time - session.target_message.created_at.timestamp() > 3600]. *)
Definition too_old (current_time : float) (session : VotingSession) : bool :=
  (3600 <? current_time - created_at (target_message session))%float.

(** One pass of the loop body of [PinBot.periodic_cleanup], after the sleep.
    The keys are visited in the order of the map's enumeration. *)
Definition cleanup_pass (P : Platform) : M unit :=
  with_lock
    (let current_time := loop_time P in
     let* b := get in
     let to_remove :=
       (filter (λ kv, too_old current_time kv.2 = true)
               (map_to_list (voting_sessions b))).*1 in
     for_each to_remove
       (λ msg_id,
          modify (set_sessions (delete msg_id)) ;;;
          emit (Log (LogCleanedUp msg_id)))).

(** [PinBot.periodic_cleanup]: one pass per wake-up until the client is
    closed; [wakeups] lists the platform as seen at each wake-up. *)
Definition periodic_cleanup (wakeups : list Platform) : M unit :=
  for_each wakeups cleanup_pass.

(** ** Start-up *)

(** How [main] ends: one of its three logged errors, or the call
    [PinBot(confirm_cap=cap).run(token)]. *)
Inductive Startup :=
| ExitTokenNotSet
| ExitCapNotInteger
| ExitCapOutOfRange
| RunBot (cap : Z) (token : string).

Section Main.

(** The built-in [int(str)]; [None] stands for [ValueError]. *)
Variable py_int : string → option Z.

(** [main], on the process environment as [os.getenv] reads it. *)
Definition main (environ : gmap string string) : Startup :=
  match environ !! "TOKEN" with
  | None => ExitTokenNotSet
  | Some token =>
    if bool_decide (token = "") then ExitTokenNotSet
    else
      match py_int (default "3" (environ !! "CONFIRM_CAP")) with
      | None => ExitCapNotInteger
      | Some cap =>
        if negb ((0 <=? cap) && (cap <=? 10)) then ExitCapOutOfRange
        else RunBot cap token
      end
  end.

End Main.

(** A reading of [int] on plain decimal literals with an optional sign. *)
Definition decimal_int (s : string) : option Z :=
  Z.of_int <$> DecimalString.NilZero.int_of_string s.

(** ** Derived notions used in the statements *)

(** The cooldown test of [pin_message_safely] as it reads the table. *)
Definition rate_limited (P : Platform) (m : Message) (b : PinBot) : bool :=
  (loop_time P - default 0%float (pin_cooldown b !! channel_id m)
     <? PIN_COOLDOWN_SECONDS b)%float.

(** The table after the [defaultdict] read for the channel of [m]. *)
Definition touch_cooldown (m : Message) (b : PinBot) : PinBot :=
  set_cooldown <[channel_id m := default 0%float (pin_cooldown b !! channel_id m)]> b.

(** The session of [add_vote u s] when the vote is accepted. *)
Definition with_vote (u : Z) (s : VotingSession) : VotingSession :=
  {| target_message := target_message s;
     votes := votes s ∪ {[u]};
     vote_count := vote_count s + 1 |}.

(** An approval reaction on the trigger message [k]. *)
Definition approval (k : Z) : Reaction :=
  {| emoji := approve_emoji; reaction_message := k |}.

(** The reaction calls of [on_message] and the warnings for those that fail. *)
Definition reaction_effects (P : Platform) (msg_id : Z) (emojis : list string) : list Effect :=
  flat_map
    (λ e, AddReaction msg_id e
          :: if add_reaction P e then [] else [Log (LogReactionFailed e)])
    emojis.

(** The three reactions [on_message] attaches for a cap. *)
Definition vote_reactions (cap : Z) : list string :=
  [ approve_emoji; "<:slash:1284496769551568927>"; get_number_emoji cap ].

(** Calls to the platform, as opposed to log lines and lock operations. *)
Definition is_platform_call (e : Effect) : bool :=
  match e with
  | FetchMessage _ | PinMessage _ | AddReaction _ _ | Reply _ _ => true
  | LockAcquire | LockRelease | Log _ => false
  end.

(** The platform calls of a trace that fall between a [LockAcquire] and the
    next [LockRelease]; [held] tells whether the lock is held at the start. *)
Fixpoint calls_under_lock (held : bool) (tr : list Effect) : list Effect :=
  match tr with
  | [] => []
  | LockAcquire :: tr => calls_under_lock true tr
  | LockRelease :: tr => calls_under_lock false tr
  | e :: tr =>
    if held && is_platform_call e then e :: calls_under_lock held tr
    else calls_under_lock held tr
  end.

(** A run of approvals on the trigger message [k]: each event carries the
    platform as it answers during that event and the id of the reacting user. *)
Definition approvals (k : Z) (evs : list (Platform * Z)) : M unit :=
  for_each evs (λ ev, on_reaction_add ev.1 (approval k) ev.2).

(** The session for target [t] once exactly the users [us] have approved. *)
Definition approved_by (t : Message) (us : list Z) : VotingSession :=
  {| target_message := t; votes := list_to_set us;
     vote_count := Z.of_nat (length us) |}.

(** Every run of [pin_message_safely] writes exactly one of these lines. *)
Definition is_pin_outcome (e : Effect) : bool :=
  match e with
  | Log (LogRateLimited _) | Log (LogPinned _) | Log (LogPinFailed _) => true
  | _ => false
  end.

(** The number of runs of the pin executor recorded in a trace. *)
Definition pin_executor_runs (tr : list Effect) : nat :=
  length (List.filter is_pin_outcome tr).

(** ** A sample run

    A bot with user id 999, a message 50 in channel 5, and two replies to it
    (messages 10 and 11) that address the bot.  Clock readings and
    timestamps are on one scale: the target dates from 1000, the replies
    are handled at 1100 and 1110.  The states below are those
    the handlers themselves produce. *)

Module Sample.

Definition target : Message :=
  {| message_id := 50; author := 3; content := "release notes";
     reference := None; channel_id := 5; created_at := 1000%float |}.

Definition trigger (msg_id : Z) : Message :=
  {| message_id := msg_id; author := 4; content := "<@999> pin this";
     reference := Some 50; channel_id := 5; created_at := 1100%float |}.

(** A platform whose clock reads [now] and whose pin call succeeds or
    raises according to [pin_ok]. *)
Definition platform (now : float) (pin_ok : bool) : Platform :=
  {| loop_time := now;
     fetch_message := λ msg_id, if msg_id =? 50 then Fetched target else FetchNotFound;
     pin := λ _, pin_ok;
     add_reaction := λ _, true |}.

(** The bot after start-up with the given cap and the trigger message 10. *)
Definition voting (cap : Z) : PinBot :=
  state (on_message (platform 1100%float true) (trigger 10) (PinBot_init cap 999)).

(** The same after a second trigger message, 11, for the same target. *)
Definition voting_twice (cap : Z) : PinBot :=
  state (on_message (platform 1110%float true) (trigger 11) (voting cap)).

(** Cap 1, both trigger messages seen, and user 7 has approved message 11
    at clock 1200: the target is pinned and session 11 retired. *)
Definition pinned_via_11 : PinBot :=
  state (on_reaction_add (platform 1200%float true) (approval 11) 7 (voting_twice 1)).

(** Then user 7 approves message 10 at clock 1202. *)
Definition first_vote_on_10 : PinBot * list Effect :=
  let out := on_reaction_add (platform 1202%float true) (approval 10) 7 pinned_via_11 in
  (state out, trace out).

(** Then user 8 approves message 10 at clock 1300. *)
Definition second_vote_on_10 : PinBot * list Effect :=
  let out := on_reaction_add (platform 1300%float true) (approval 10) 8 first_vote_on_10.1 in
  (state out, trace out).

End Sample.

(** ** The client as a consumer of events

    The gateway calls one handler per event; the sweep wakes up on its own
    timer.  An [Event] is one such call with the platform's answers during
    it. *)

Inductive Event :=
| MessageCreated (P : Platform) (message : Message)
| ReactionAdded (P : Platform) (reaction : Reaction) (user_id : Z)
| ReactionRemoved (reaction : Reaction) (user_id : Z)
| CleanupWakeup (P : Platform).

Definition handle (e : Event) : M unit :=
  match e with
  | MessageCreated P message => on_message P message
  | ReactionAdded P reaction user_id => on_reaction_add P reaction user_id
  | ReactionRemoved reaction user_id => on_reaction_remove reaction user_id
  | CleanupWakeup P => cleanup_pass P
  end.

Definition handle_all (events : list Event) : M unit :=
  for_each events handle.

(** The ids of the messages delivered to [on_message] in a run of events. *)
Definition delivered_messages (events : list Event) : list Z :=
  flat_map (λ e, match e with
                 | MessageCreated _ message => [message_id message]
                 | _ => []
                 end) events.

(** The first two tests of [on_message], as one function: the id of the
    referenced message when the message is a reply by somebody else than the
    bot that addresses the bot at its start. *)
Definition trigger_reference (b : PinBot) (message : Message) : option Z :=
  if bool_decide (author message = user b) || bool_decide (reference message = None)
  then None
  else if negb (mentions_bot_first (user b) (content message)) then None
  else reference message.

(** The first test of [on_reaction_add] and [on_reaction_remove]: the
    reaction is the approval emoji and is not the bot's own. *)
Definition counts_as_vote (b : PinBot) (reaction : Reaction) (user_id : Z) : bool :=
  negb (bool_decide (user_id = user b)
        || negb (String.eqb (emoji reaction) approve_emoji)).

(** The trigger-message id an event is about; the sweep is about none. *)
Definition event_key (e : Event) : option Z :=
  match e with
  | MessageCreated _ message => Some (message_id message)
  | ReactionAdded _ reaction _ => Some (reaction_message reaction)
  | ReactionRemoved reaction _ => Some (reaction_message reaction)
  | CleanupWakeup _ => None
  end.

(** The messages a trace shows [message.pin()] being called on. *)
Definition pinned_messages (tr : list Effect) : list Message :=
  flat_map (λ e, match e with PinMessage m => [m] | _ => [] end) tr.

(** The message an event asks the bot to pin: for a trigger message, the
    message the platform returned for its reference. *)
Definition requested_target (b : PinBot) (e : Event) : option Message :=
  match e with
  | MessageCreated P message =>
    match trigger_reference b message with
    | Some ref =>
      match fetch_message P ref with
      | Fetched target => Some target
      | _ => None
      end
    | None => None
    end
  | _ => None
  end.

(** The last-pin time the cooldown test sees for a channel: the stored
    entry, or [0.0] when the [defaultdict] has none. *)
Definition last_pin_time (b : PinBot) (channel : Z) : float :=
  default 0%float (pin_cooldown b !! channel).

(** [e] is an approval of the trigger message [k] by user [x] that passes
    the first test of [on_reaction_add] in state [b]. *)
Definition approval_of (b : PinBot) (k x : Z) (e : Event) : Prop :=
  match e with
  | ReactionAdded _ r u =>
    u = x ∧ reaction_message r = k ∧ emoji r = approve_emoji ∧ x ≠ user b
  | _ => False
  end.

(** ** A run on the clocks the program reads

    [asyncio.get_event_loop().time()] is a monotonic clock, here the seconds
    since the host started; [created_at.timestamp()] is in seconds since
    1970.  The target below was written in November 2023; the bot sees the
    reply to it when its host has been up for one day. *)

Module Uptime.

Definition target : Message :=
  {| message_id := 50; author := 3; content := "release notes";
     reference := None; channel_id := 5; created_at := 1700000000%float |}.

Definition trigger : Message :=
  {| message_id := 10; author := 4; content := "<@999> pin this";
     reference := Some 50; channel_id := 5; created_at := 1700000600%float |}.

Definition platform (now : float) : Platform :=
  {| loop_time := now;
     fetch_message := λ msg_id, if msg_id =? 50 then Fetched target else FetchNotFound;
     pin := λ _, true;
     add_reaction := λ _, true |}.

(** The bot (cap 3) once it has stored the session for the reply. *)
Definition voting : PinBot :=
  state (on_message (platform 86400%float) trigger (PinBot_init 3 999)).

(** The next [n] wake-ups of the sweep after clock reading [now], one every
    300 seconds as [asyncio.sleep(300)] spaces them. *)
Fixpoint wakeups (n : nat) (now : float) : list Platform :=
  match n with
  | O => []
  | S n => platform (now + 300)%float :: wakeups n (now + 300)%float
  end.

End Uptime.

(** * Properties *)

(** ** Projections of a run *)

Lemma state_run {A} (a : A) (b : PinBot) (t : list Effect) : state (a, b, t) = b.
Proof. reflexivity. Qed.

Lemma trace_run {A} (a : A) (b : PinBot) (t : list Effect) : trace (a, b, t) = t.
Proof. reflexivity. Qed.

Lemma result_run {A} (a : A) (b : PinBot) (t : list Effect) : result (a, b, t) = a.
Proof. reflexivity. Qed.

Ltac run_proj := rewrite ?state_run, ?trace_run, ?result_run.

(** ** Voting sessions *)

Lemma add_vote_coherent u s : count_coherent s → count_coherent (add_vote u s).2.
Proof.
  unfold count_coherent, add_vote. intros H.
  destruct (decide (u ∉ votes s)) as [Hn|Hn]; simpl; [|done].
  rewrite size_union by set_solver. rewrite size_singleton. lia.
Qed.

Lemma remove_vote_coherent u s : count_coherent s → count_coherent (remove_vote u s).2.
Proof.
  unfold count_coherent, remove_vote. intros H.
  destruct (decide (u ∈ votes s)) as [Hin|Hn]; simpl; [|done].
  assert (Hsz : size (votes s) = S (size (votes s ∖ {[u]}))).
  { rewrite (union_difference_singleton_L u (votes s)) at 1 by done.
    rewrite size_union, size_singleton; [done|].
    apply disjoint_singleton_l. rewrite elem_of_difference, elem_of_singleton. tauto. }
  lia.
Qed.

Lemma apply_op_coherent o s : count_coherent s → count_coherent (apply_op o s).
Proof. destruct o; simpl; auto using add_vote_coherent, remove_vote_coherent. Qed.

Lemma new_session_coherent t : count_coherent (new_session t).
Proof. unfold count_coherent, new_session; cbn [vote_count votes]. by rewrite size_empty. Qed.

Lemma session_history_coherent ops s :
  count_coherent s → Forall count_coherent (session_history ops s).
Proof.
  revert s. induction ops as [|o ops IH]; intros s Hs; simpl.
  - constructor.
  - constructor; [|apply IH]; by apply apply_op_coherent.
Qed.

(** C4: along every sequence of [add_vote] and [remove_vote] calls that
    starts from a freshly created session, the cached [vote_count] equals
    the number of elements of [votes] after each call. *)
Theorem vote_count_tracks_voters (t : Message) (ops : list VoteOp) :
  Forall (λ s, vote_count s = Z.of_nat (size (votes s)))
         (session_history ops (new_session t)).
Proof. apply session_history_coherent, new_session_coherent. Qed.

Lemma add_vote_present u s : u ∈ votes s → add_vote u s = (false, s).
Proof. intros H. unfold add_vote. by rewrite decide_False by (intros Hn; apply Hn, H). Qed.

Lemma remove_vote_absent u s : u ∉ votes s → remove_vote u s = (false, s).
Proof. intros H. unfold remove_vote. by rewrite decide_False. Qed.

Lemma add_vote_records u s : u ∈ votes (add_vote u s).2.
Proof.
  unfold add_vote. destruct (decide (u ∉ votes s)) as [H|H]; simpl.
  - apply elem_of_union_r, elem_of_singleton. reflexivity.
  - by apply dec_stable.
Qed.

Lemma remove_vote_erases u s : u ∉ votes (remove_vote u s).2.
Proof.
  unfold remove_vote. destruct (decide (u ∈ votes s)) as [H|H]; simpl; [|done].
  rewrite elem_of_difference, elem_of_singleton. tauto.
Qed.

(** C7: a second [add_vote] by the same user returns [False] and leaves the
    session as the first call left it; likewise a second [remove_vote]; and
    [remove_vote] (resp. [add_vote]) on a user who is absent (resp. present)
    returns [False] and changes nothing. *)
Theorem votes_are_idempotent (u : Z) (s : VotingSession) :
  add_vote u (add_vote u s).2 = (false, (add_vote u s).2)
  ∧ remove_vote u (remove_vote u s).2 = (false, (remove_vote u s).2)
  ∧ (u ∉ votes s → remove_vote u s = (false, s))
  ∧ (u ∈ votes s → add_vote u s = (false, s)).
Proof.
  split; [|split; [|split]].
  - apply add_vote_present, add_vote_records.
  - apply remove_vote_absent, remove_vote_erases.
  - apply remove_vote_absent.
  - apply add_vote_present.
Qed.

(** The idempotence statement at user 7, on a fresh session and on a session
    that holds that user's vote. *)
Lemma votes_are_idempotent_witness :
  remove_vote 7 (new_session Sample.target) = (false, new_session Sample.target)
  ∧ add_vote 7 (approved_by Sample.target [7]) = (false, approved_by Sample.target [7]).
Proof.
  split.
  - apply (votes_are_idempotent 7 (new_session Sample.target)).
    cbn [votes new_session]. apply not_elem_of_empty.
  - apply (votes_are_idempotent 7 (approved_by Sample.target [7])).
    cbn [votes approved_by]. apply elem_of_list_to_set, list_elem_of_singleton.
    reflexivity.
Defined.

(** ** The pin executor *)

Lemma pin_message_safely_unfold P m b :
  pin_message_safely P m b =
    if rate_limited P m b then
      (false, touch_cooldown m b, [Log (LogRateLimited (channel_id m))])
    else if pin P m then
      (true, set_cooldown <[channel_id m := loop_time P]> (touch_cooldown m b),
       [PinMessage m; Log (LogPinned (message_id m))])
    else
      (false, touch_cooldown m b, [PinMessage m; Log (LogPinFailed (message_id m))]).
Proof.
  unfold pin_message_safely, rate_limited, touch_cooldown, read_cooldown.
  unfold bind, get, modify, emit, ret. cbn [PIN_COOLDOWN_SECONDS set_cooldown].
  destruct (_ <? _)%float; [reflexivity|].
  destruct (pin P m); reflexivity.
Qed.

(** ** Reactions *)

Lemma add_vote_fresh u s : u ∉ votes s → add_vote u s = (true, with_vote u s).
Proof. intros H. unfold add_vote, with_vote. by rewrite decide_True. Qed.

(** An approval by somebody else than the bot passes the first test. *)
Lemma on_reaction_add_unfold P r u b :
  u ≠ user b → emoji r = approve_emoji →
  on_reaction_add P r u b =
    match voting_sessions b !! reaction_message r with
    | None => (tt, b, [LockAcquire; LockRelease])
    | Some s =>
      let b1 := set_sessions <[reaction_message r := (add_vote u s).2]> b in
      if (add_vote u s).1 then
        let line := Log (LogVoteAdded u (reaction_message r) (vote_count (add_vote u s).2)) in
        if confirm_cap b <=? vote_count (add_vote u s).2 then
          let attempt := pin_message_safely P (target_message (add_vote u s).2) b1 in
          (tt,
           if result attempt
           then set_sessions (delete (reaction_message r)) (state attempt)
           else state attempt,
           LockAcquire :: line :: trace attempt ++ [LockRelease])
        else (tt, b1, [LockAcquire; line; LockRelease])
      else (tt, b1, [LockAcquire; LockRelease])
    end.
Proof.
  intros Hu He. unfold on_reaction_add.
  unfold bind at 1. unfold get at 1.
  rewrite bool_decide_eq_false_2 by done. rewrite He, String.eqb_refl.
  cbn [orb negb]. unfold with_lock, bind, get, emit, ret, modify.
  destruct (voting_sessions b !! reaction_message r) as [s|]; [|reflexivity].
  destruct (add_vote u s) as [[] s']; cbn [fst snd]; [|reflexivity].
  cbn [confirm_cap set_sessions].
  destruct (confirm_cap b <=? vote_count s'); [|reflexivity].
  unfold result, state, trace.
  destruct (pin_message_safely P (target_message s') _) as [[[] b2] tr];
    cbn [fst snd]; rewrite ?app_nil_r; reflexivity.
Qed.

(** C1 (amended): when an accepted approval brings the count to
    [confirm_cap] or more, the handler runs the pin executor on the
    session's target message while holding the lock, and the session leaves
    the table exactly when the executor returned [True]; after a rate-limit
    denial or a failed pin the session stays, with the new vote recorded. *)
Theorem threshold_vote_retires_only_on_pin_success
    (P : Platform) (r : Reaction) (u : Z) (b : PinBot) (s : VotingSession) :
  u ≠ user b →
  emoji r = approve_emoji →
  voting_sessions b !! reaction_message r = Some s →
  u ∉ votes s →
  confirm_cap b ≤ vote_count s + 1 →
  let k := reaction_message r in
  let attempt :=
    pin_message_safely P (target_message s) (set_sessions <[k := with_vote u s]> b) in
  let out := on_reaction_add P r u b in
  trace out =
    LockAcquire :: Log (LogVoteAdded u k (vote_count s + 1))
      :: trace attempt ++ [LockRelease]
  ∧ voting_sessions (state out) !! k =
      (if result attempt then None else Some (with_vote u s)).
Proof.
  intros Hu He Hs Hfresh Hcap k attempt out. subst out k.
  rewrite on_reaction_add_unfold by done. rewrite Hs.
  rewrite add_vote_fresh by done. cbn [fst snd with_vote vote_count target_message].
  rewrite (proj2 (Z.leb_le _ _) Hcap). fold (with_vote u s). fold attempt.
  cbn zeta. split; [reflexivity|].
  unfold state at 1. cbn [fst snd].
  subst attempt. rewrite pin_message_safely_unfold.
  destruct (rate_limited _ _ _); [|destruct (pin P _)];
    unfold result, state; cbn [fst snd voting_sessions set_sessions set_cooldown touch_cooldown];
    rewrite ?lookup_delete_eq, ?lookup_insert_eq; reflexivity.
Qed.

(** The statement at the sample session 10 with cap 1 and a first approval by
    user 7. *)
Lemma threshold_vote_retires_only_on_pin_success_witness :
  trace (on_reaction_add (Sample.platform 1200%float true) (approval 10) 7 (Sample.voting 1)) =
    LockAcquire :: Log (LogVoteAdded 7 10 (0 + 1))
      :: trace (pin_message_safely (Sample.platform 1200%float true) Sample.target
                  (set_sessions <[10 := with_vote 7 (new_session Sample.target)]>
                     (Sample.voting 1)))
      ++ [LockRelease]
  ∧ voting_sessions
      (state (on_reaction_add (Sample.platform 1200%float true) (approval 10) 7
                (Sample.voting 1))) !! 10 =
      (if result (pin_message_safely (Sample.platform 1200%float true) Sample.target
                    (set_sessions <[10 := with_vote 7 (new_session Sample.target)]>
                       (Sample.voting 1)))
       then None else Some (with_vote 7 (new_session Sample.target))).
Proof.
  apply (threshold_vote_retires_only_on_pin_success
           (Sample.platform 1200%float true) (approval 10) 7 (Sample.voting 1)
           (new_session Sample.target)).
  - vm_compute. discriminate.
  - reflexivity.
  - vm_compute. reflexivity.
  - cbn [votes new_session]. apply not_elem_of_empty.
  - vm_compute. discriminate.
Defined.

(** C1, as stated, fails: with [confirm_cap = 1] the first approval reaches
    the cap and the pin executor is run, but the platform refuses the pin
    ([message.pin()] raises); the handler returns with the session still in
    the table under its trigger key. *)
Lemma failed_pin_leaves_session_in_store :
  trace (on_reaction_add (Sample.platform 1200%float false) (approval 10) 7 (Sample.voting 1)) =
    [ LockAcquire; Log (LogVoteAdded 7 10 1);
      PinMessage Sample.target; Log (LogPinFailed 50); LockRelease ]
  ∧ voting_sessions
      (state (on_reaction_add (Sample.platform 1200%float false) (approval 10) 7
                (Sample.voting 1))) !! 10 =
      Some {| target_message := Sample.target; votes := {[7]}; vote_count := 1 |}.
Proof. split; vm_compute; reflexivity. Qed.

(** ** The periodic sweep *)

(** The deletion loop of [periodic_cleanup] on a list of keys. *)
Lemma for_each_delete_sessions (keys : list Z) (b : PinBot) :
  state (for_each keys
           (λ msg_id, modify (set_sessions (delete msg_id)) ;;;
                      emit (Log (LogCleanedUp msg_id))) b)
  = set_sessions (λ m, foldl (λ m k, delete k m) m keys) b.
Proof.
  revert b. induction keys as [|k keys IH]; intros b.
  - by destruct b.
  - cbn [for_each foldl]. unfold bind at 1.
    unfold bind at 1. unfold modify at 1, emit at 1. cbn [fst snd].
    specialize (IH (set_sessions (delete k) b)).
    destruct (for_each keys _ (set_sessions (delete k) b)) as [[[] b2] t2].
    unfold state in *. cbn [fst snd] in *. rewrite IH. by destruct b.
Qed.

Lemma lookup_foldl_delete {V} (keys : list Z) (m : gmap Z V) (k : Z) :
  foldl (λ m k, delete k m) m keys !! k =
    if bool_decide (k ∈ keys) then None else m !! k.
Proof.
  revert m. induction keys as [|k' keys IH]; intros m; cbn [foldl].
  - rewrite bool_decide_eq_false_2; [done | apply not_elem_of_nil].
  - rewrite IH. destruct (decide (k = k')) as [->|Hne].
    + rewrite lookup_delete_eq.
      rewrite (bool_decide_eq_true_2 (k' ∈ k' :: keys)) by (apply elem_of_cons; by left).
      by destruct (bool_decide _).
    + rewrite lookup_delete_ne by done.
      rewrite (bool_decide_ext (k ∈ k' :: keys) (k ∈ keys)); [done|].
      rewrite elem_of_cons. tauto.
Qed.

Lemma cleanup_pass_state (P : Platform) (b : PinBot) :
  state (cleanup_pass P b) =
    set_sessions
      (λ m, foldl (λ m k, delete k m) m
              (filter (λ kv, too_old (loop_time P) kv.2 = true) (map_to_list m)).*1) b.
Proof.
  unfold cleanup_pass, with_lock.
  unfold bind at 1. unfold emit at 1.
  unfold bind at 1. unfold bind at 1. unfold get at 1.
  pose proof (for_each_delete_sessions
    (filter (λ kv, too_old (loop_time P) kv.2 = true)
       (map_to_list (voting_sessions b))).*1 b) as H.
  destruct (for_each _ _ b) as [[[] b2] t2].
  unfold state in *. cbn [fst snd] in *. subst b2.
  unfold bind, emit, ret. reflexivity.
Qed.

(** C2: the code breaks the claim.  The sweep compares the event loop's
    monotonic clock with the target message's wall-clock creation timestamp,
    so the age it computes is negative and no session is ever removed.  The
    session for the reply seen at an uptime of one day is still in the table
    after a sweep an hour and a half later, after the 400 sweeps of the
    following 33 hours, and after sweeps at uptimes of one and of ten
    years. *)
Theorem sweep_on_loop_clock_removes_no_session :
  voting_sessions Uptime.voting !! 10 = Some (new_session Uptime.target)
  ∧ voting_sessions
      (state (cleanup_pass (Uptime.platform 91800%float) Uptime.voting)) !! 10
    = Some (new_session Uptime.target)
  ∧ (loop_time <$> last (Uptime.wakeups 400 86400%float)) = Some 206400%float
  ∧ state (periodic_cleanup (Uptime.wakeups 400 86400%float) Uptime.voting)
    = Uptime.voting
  ∧ state (cleanup_pass (Uptime.platform 31536000%float) Uptime.voting) = Uptime.voting
  ∧ state (cleanup_pass (Uptime.platform 315360000%float) Uptime.voting) = Uptime.voting.
Proof. repeat split; vm_compute; reflexivity. Qed.

(** ** The cooldown gate *)

Lemma pin_message_safely_result P m b :
  result (pin_message_safely P m b) = negb (rate_limited P m b) && pin P m.
Proof.
  rewrite pin_message_safely_unfold.
  destruct (rate_limited P m b); [reflexivity|]. by destruct (pin P m).
Qed.

Lemma pin_message_safely_cooldown P m b :
  pin_cooldown (state (pin_message_safely P m b)) !! channel_id m =
    Some (if result (pin_message_safely P m b) then loop_time P
          else default 0%float (pin_cooldown b !! channel_id m)).
Proof.
  rewrite pin_message_safely_unfold.
  destruct (rate_limited P m b); [|destruct (pin P m)];
    unfold state, result; cbn [fst snd pin_cooldown set_cooldown touch_cooldown];
    by rewrite lookup_insert_eq.
Qed.

Lemma pin_message_safely_keeps_config P m b :
  PIN_COOLDOWN_SECONDS (state (pin_message_safely P m b)) = PIN_COOLDOWN_SECONDS b
  ∧ confirm_cap (state (pin_message_safely P m b)) = confirm_cap b
  ∧ user (state (pin_message_safely P m b)) = user b
  ∧ voting_sessions (state (pin_message_safely P m b)) = voting_sessions b.
Proof.
  rewrite pin_message_safely_unfold.
  destruct (rate_limited P m b); [|destruct (pin P m)]; by destruct b.
Qed.




(** ** Trigger messages *)

Lemma for_each_reactions P msg_id emojis b :
  for_each emojis
    (λ emoji, emit (AddReaction msg_id emoji) ;;;
              if add_reaction P emoji then ret tt
              else emit (Log (LogReactionFailed emoji))) b
  = (tt, b, reaction_effects P msg_id emojis).
Proof.
  induction emojis as [|e emojis IH]; [reflexivity|].
  cbn [for_each reaction_effects flat_map]. unfold bind at 1. unfold bind at 1.
  unfold emit at 1. rewrite (surjective_pairing (_ b)).
  assert (Hstep : ∀ b', (if add_reaction P e then ret tt
                         else emit (Log (LogReactionFailed e))) b'
                        = (tt, b', if add_reaction P e then []
                                   else [Log (LogReactionFailed e)])).
  { intros b'. by destruct (add_reaction P e). }
  rewrite Hstep. cbn [fst snd]. rewrite IH. reflexivity.
Qed.

(** A reply that addresses the bot, whose referenced message is found. *)
Lemma on_message_unfold P msg b ref target :
  author msg ≠ user b →
  reference msg = Some ref →
  mentions_bot_first (user b) (content msg) = true →
  fetch_message P ref = Fetched target →
  on_message P msg b =
    if confirm_cap b =? 0 then
      (tt, state (pin_message_safely P target b),
       FetchMessage ref :: trace (pin_message_safely P target b))
    else
      (tt, set_sessions <[message_id msg := new_session target]> b,
       FetchMessage ref :: LockAcquire :: LockRelease
         :: reaction_effects P (message_id msg) (vote_reactions (confirm_cap b))).
Proof.
  intros Ha Hr Hm Hf. unfold on_message.
  unfold bind at 1. unfold get at 1.
  rewrite bool_decide_eq_false_2 by done.
  rewrite Hr, bool_decide_eq_false_2 by done. rewrite Hm. cbn [orb negb].
  unfold bind at 1. unfold emit at 1. rewrite Hf.
  destruct (confirm_cap b =? 0).
  - unfold bind, ret, state, trace.
    destruct (pin_message_safely P target b) as [[ok b1] tr].
    cbn [fst snd]. by rewrite app_nil_r.
  - unfold bind at 1. fold (vote_reactions (confirm_cap b)).
    rewrite (surjective_pairing (with_lock _ _)).
    rewrite (surjective_pairing (with_lock _ _).1).
    rewrite for_each_reactions. reflexivity.
Qed.

(** C6 (amended): with a non-zero cap, a trigger message whose referenced
    message is found stores a fresh session under the trigger's id whether
    or not the table already has one there: an existing session for that key
    is replaced, its votes discarded.  The table being a map, it holds at
    most one session per key. *)
Theorem trigger_message_overwrites_session
    (P : Platform) (msg : Message) (b : PinBot) (ref : Z) (target : Message) :
  author msg ≠ user b →
  reference msg = Some ref →
  mentions_bot_first (user b) (content msg) = true →
  fetch_message P ref = Fetched target →
  confirm_cap b ≠ 0 →
  voting_sessions (state (on_message P msg b)) =
    <[message_id msg := new_session target]> (voting_sessions b)
  ∧ voting_sessions (state (on_message P msg b)) !! message_id msg =
      Some (new_session target).
Proof.
  intros Ha Hr Hm Hf Hcap.
  rewrite (on_message_unfold P msg b ref target) by done.
  rewrite (proj2 (Z.eqb_neq _ _) Hcap).
  unfold state. cbn [fst snd voting_sessions set_sessions].
  split; [reflexivity | apply lookup_insert_eq].
Qed.

(** The statement at the sample trigger 10, handled again when session 10
    already holds the vote of user 7 (cap 3). *)
Lemma trigger_message_overwrites_session_witness :
  voting_sessions
    (state (on_reaction_add (Sample.platform 1120%float true) (approval 10) 7
              (Sample.voting 3))) !! message_id (Sample.trigger 10)
    = Some {| target_message := Sample.target; votes := {[7]}; vote_count := 1 |}
  ∧ voting_sessions
    (state (on_message (Sample.platform 1130%float true) (Sample.trigger 10)
              (state (on_reaction_add (Sample.platform 1120%float true) (approval 10) 7
                        (Sample.voting 3))))) =
    <[message_id (Sample.trigger 10) := new_session Sample.target]>
      (voting_sessions
         (state (on_reaction_add (Sample.platform 1120%float true) (approval 10) 7
                   (Sample.voting 3))))
  ∧ voting_sessions
      (state (on_message (Sample.platform 1130%float true) (Sample.trigger 10)
                (state (on_reaction_add (Sample.platform 1120%float true) (approval 10) 7
                          (Sample.voting 3))))) !! message_id (Sample.trigger 10) =
      Some (new_session Sample.target).
Proof.
  split; [vm_compute; reflexivity|].
  apply (trigger_message_overwrites_session
           (Sample.platform 1130%float true) (Sample.trigger 10)
           (state (on_reaction_add (Sample.platform 1120%float true) (approval 10) 7
                     (Sample.voting 3)))
           50 Sample.target).
  - vm_compute. discriminate.
  - reflexivity.
  - vm_compute. reflexivity.
  - reflexivity.
  - vm_compute. discriminate.
Defined.

(** C6, as stated, fails: session 10 holds the vote of user 7 when a message
    event with id 10 is handled again; the handler does not reject it, and
    the stored session is back to no votes. *)
Lemma second_create_discards_existing_votes :
  voting_sessions
    (state (on_reaction_add (Sample.platform 1120%float true) (approval 10) 7
              (Sample.voting 3))) !! 10
    = Some {| target_message := Sample.target; votes := {[7]}; vote_count := 1 |}
  ∧ voting_sessions
      (state (on_message (Sample.platform 1130%float true) (Sample.trigger 10)
                (state (on_reaction_add (Sample.platform 1120%float true) (approval 10) 7
                          (Sample.voting 3))))) !! 10
    = Some {| target_message := Sample.target; votes := ∅; vote_count := 0 |}.
Proof. split; vm_compute; reflexivity. Qed.

(** C9: with [confirm_cap = 0], a reply that addresses the bot at its start
    and whose referenced message is found makes the handler fetch that
    message and run the pin executor on it, and nothing else; the session
    table is left as it was. *)
Theorem zero_cap_pins_immediately_without_session
    (P : Platform) (msg : Message) (b : PinBot) (ref : Z) (target : Message) :
  author msg ≠ user b →
  reference msg = Some ref →
  mentions_bot_first (user b) (content msg) = true →
  fetch_message P ref = Fetched target →
  confirm_cap b = 0 →
  on_message P msg b =
    (tt, state (pin_message_safely P target b),
     FetchMessage ref :: trace (pin_message_safely P target b))
  ∧ voting_sessions (state (on_message P msg b)) = voting_sessions b.
Proof.
  intros Ha Hr Hm Hf Hcap.
  rewrite (on_message_unfold P msg b ref target) by done.
  rewrite Hcap. cbn [Z.eqb]. split; [reflexivity|].
  unfold state at 1. cbn [fst snd].
  apply pin_message_safely_keeps_config.
Qed.

(** The statement at the sample trigger message 10 with cap 0. *)
Lemma zero_cap_pins_immediately_without_session_witness :
  on_message (Sample.platform 1100%float true) (Sample.trigger 10) (PinBot_init 0 999) =
    (tt,
     state (pin_message_safely (Sample.platform 1100%float true) Sample.target
              (PinBot_init 0 999)),
     FetchMessage 50
       :: trace (pin_message_safely (Sample.platform 1100%float true) Sample.target
                   (PinBot_init 0 999)))
  ∧ voting_sessions
      (state (on_message (Sample.platform 1100%float true) (Sample.trigger 10)
                (PinBot_init 0 999)))
    = voting_sessions (PinBot_init 0 999).
Proof.
  apply (zero_cap_pins_immediately_without_session
           (Sample.platform 1100%float true) (Sample.trigger 10) (PinBot_init 0 999)
           50 Sample.target).
  - vm_compute. discriminate.
  - reflexivity.
  - vm_compute. reflexivity.
  - reflexivity.
  - reflexivity.
Defined.

(** ** The threshold *)

Lemma set_sessions_insert_id k s b :
  voting_sessions b !! k = Some s → set_sessions <[k := s]> b = b.
Proof. intros H. destruct b. unfold set_sessions. cbn in *. by rewrite insert_id. Qed.

Lemma set_sessions_insert_insert k s s' b :
  set_sessions <[k := s']> (set_sessions <[k := s]> b) = set_sessions <[k := s']> b.
Proof. destruct b. unfold set_sessions. cbn. by rewrite insert_insert_eq. Qed.

Lemma pin_executor_runs_app t1 t2 :
  pin_executor_runs (t1 ++ t2) = (pin_executor_runs t1 + pin_executor_runs t2)%nat.
Proof. unfold pin_executor_runs. by rewrite List.filter_app, length_app. Qed.

Lemma pin_message_safely_runs_once P m b :
  pin_executor_runs (trace (pin_message_safely P m b)) = 1%nat.
Proof.
  rewrite pin_message_safely_unfold.
  destruct (rate_limited P m b); [|destruct (pin P m)]; reflexivity.
Qed.

(** An accepted approval that leaves the count below the cap only records
    the vote. *)
Lemma on_reaction_add_below_cap P k u b s :
  u ≠ user b →
  voting_sessions b !! k = Some s →
  u ∉ votes s →
  vote_count s + 1 < confirm_cap b →
  on_reaction_add P (approval k) u b =
    (tt, set_sessions <[k := with_vote u s]> b,
     [LockAcquire; Log (LogVoteAdded u k (vote_count s + 1)); LockRelease]).
Proof.
  intros Hu Hs Hfresh Hlt.
  rewrite on_reaction_add_unfold by done. cbn [approval reaction_message].
  rewrite Hs, add_vote_fresh by done. cbn [fst snd with_vote vote_count].
  rewrite (proj2 (Z.leb_gt _ _) Hlt). reflexivity.
Qed.

Lemma approved_by_snoc t us u :
  with_vote u (approved_by t us) = approved_by t (us ++ [u]).
Proof.
  unfold with_vote, approved_by. cbn [target_message votes vote_count]. f_equal.
  - apply set_eq. intros x.
    rewrite elem_of_union, !elem_of_list_to_set, elem_of_app, elem_of_singleton.
    by rewrite list_elem_of_singleton.
  - rewrite length_app. cbn [length]. lia.
Qed.

Lemma approvals_cons k P u evs b :
  approvals k ((P, u) :: evs) b =
    (tt, state (approvals k evs (state (on_reaction_add P (approval k) u b))),
     trace (on_reaction_add P (approval k) u b)
       ++ trace (approvals k evs (state (on_reaction_add P (approval k) u b)))).
Proof.
  unfold approvals. cbn [for_each fst snd]. unfold bind at 1.
  destruct (on_reaction_add P (approval k) u b) as [[[] b1] t1].
  unfold state, trace. cbn [fst snd].
  by destruct (for_each evs _ b1) as [[[] b2] t2].
Qed.

(** Approvals by distinct users that keep the count below the cap. *)
Lemma approvals_below_cap k t evs : ∀ b us,
  voting_sessions b !! k = Some (approved_by t us) →
  NoDup (us ++ evs.*2) →
  user b ∉ evs.*2 →
  Z.of_nat (length us + length evs) < confirm_cap b →
  state (approvals k evs b) = set_sessions <[k := approved_by t (us ++ evs.*2)]> b
  ∧ pin_executor_runs (trace (approvals k evs b)) = 0%nat
  ∧ calls_under_lock false (trace (approvals k evs b)) = [].
Proof.
  induction evs as [|[P u] evs IH]; intros b us Hs Hnd Hbot Hlt.
  - cbn. rewrite app_nil_r. rewrite set_sessions_insert_id by done. done.
  - cbn [fmap list_fmap snd length] in Hnd, Hbot, Hlt |- *.
    apply NoDup_app in Hnd as (Hus & Hdisj & Hevs).
    apply not_elem_of_cons in Hbot as [Hbu Hbot].
    apply NoDup_cons in Hevs as [Hu Hevs].
    assert (Hfresh : u ∉ votes (approved_by t us)).
    { cbn. rewrite elem_of_list_to_set. intros Hin.
      apply (Hdisj u Hin). apply elem_of_cons. by left. }
    rewrite approvals_cons.
    rewrite (on_reaction_add_below_cap P k u b (approved_by t us));
      [|done|done|done|cbn; lia].
    rewrite approved_by_snoc.
    run_proj.
    destruct (IH (set_sessions <[k := approved_by t (us ++ [u])]> b) (us ++ [u]))
      as (Hst & Hruns & Hlock).
    + cbn. apply lookup_insert_eq.
    + rewrite <- app_assoc. cbn. apply NoDup_app. split; [done|]. split.
      * intros x Hx. by apply Hdisj.
      * by apply NoDup_cons.
    + by destruct b.
    + rewrite length_app. cbn [length confirm_cap set_sessions]. lia.
    + rewrite Hst, set_sessions_insert_insert, <- app_assoc. cbn [app].
      split; [done|]. split; [exact Hruns | exact Hlock].
Qed.

(** C3 (amended): on a fresh session, with [confirm_cap = N ≥ 1] and
    approvals by distinct users other than the bot, the pin executor is not
    run during the first [N - 1] approvals and the session stays, holding
    exactly the votes cast so far; the [N]th approval runs the pin executor
    once, on the session's target.  The session is retired at that vote
    exactly when the pin call was let through by the cooldown and succeeded;
    otherwise it stays with [N] votes. *)
Theorem pin_executor_runs_at_the_cap_th_vote
    (b : PinBot) (k : Z) (t : Message) (evs : list (Platform * Z))
    (P : Platform) (u : Z) :
  voting_sessions b !! k = Some (new_session t) →
  NoDup (evs.*2 ++ [u]) →
  user b ∉ evs.*2 ++ [u] →
  Z.of_nat (length evs) + 1 = confirm_cap b →
  let nth := on_reaction_add P (approval k) u (state (approvals k evs b)) in
  (∀ n : nat,
     pin_executor_runs (trace (approvals k (take n evs) b)) = 0%nat
     ∧ voting_sessions (state (approvals k (take n evs) b)) !! k =
         Some (approved_by t (take n evs).*2))
  ∧ pin_executor_runs (trace nth) = 1%nat
  ∧ List.filter is_platform_call (trace nth) =
      (if rate_limited P t b then [] else [PinMessage t])
  ∧ voting_sessions (state nth) !! k =
      (if negb (rate_limited P t b) && pin P t then None
       else Some (approved_by t (evs.*2 ++ [u]))).
Proof.
  intros Hs Hnd Hbot Hcap nth.
  apply NoDup_app in Hnd as (Hevs & Hdisj & _).
  apply not_elem_of_app in Hbot as [Hbot Hbu].
  rewrite list_elem_of_singleton in Hbu.
  assert (Hbelow : ∀ evs', evs'.*2 `sublist_of` evs.*2 →
            state (approvals k evs' b) = set_sessions <[k := approved_by t evs'.*2]> b
            ∧ pin_executor_runs (trace (approvals k evs' b)) = 0%nat).
  { intros evs' Hsub.
    destruct (approvals_below_cap k t evs' b []) as (Hst & Hruns & _); try done.
    - cbn [app]. by apply (sublist_NoDup _ _ Hevs).
    - intros Hin. apply Hbot. by apply (elem_of_sublist _ _ _ Hin).
    - apply sublist_length in Hsub. rewrite !length_fmap in Hsub.
      cbn [length]. lia. }
  split.
  - intros n. destruct (Hbelow (take n evs)) as [Hst Hruns].
    { rewrite fmap_take. apply sublist_take. }
    split; [done|]. rewrite Hst. cbn [voting_sessions set_sessions].
    apply lookup_insert_eq.
  - destruct (Hbelow evs) as [Hst _]; [done|].
    subst nth. rewrite Hst.
    rewrite on_reaction_add_unfold; [|by destruct b|done].
    cbn [approval reaction_message voting_sessions set_sessions].
    rewrite lookup_insert_eq.
    rewrite add_vote_fresh.
    2:{ cbn. rewrite elem_of_list_to_set. intros Hin.
        apply (Hdisj u Hin). apply list_elem_of_singleton. reflexivity. }
    rewrite approved_by_snoc. cbn [fst snd confirm_cap].
    replace (confirm_cap b <=? vote_count (approved_by t (evs.*2 ++ [u]))) with true.
    2:{ symmetry. apply Z.leb_le. cbn. rewrite length_app, length_fmap. cbn. lia. }
    cbn zeta. run_proj. rewrite set_sessions_insert_insert.
    cbn [target_message approved_by].
    rewrite pin_message_safely_unfold.
    change (rate_limited P t (set_sessions _ b)) with (rate_limited P t b).
    destruct (rate_limited P t b); [|destruct (pin P t)]; run_proj;
      cbn [negb andb voting_sessions set_sessions set_cooldown touch_cooldown];
      rewrite ?lookup_delete_eq, ?lookup_insert_eq; done.
Qed.

(** The statement at cap 2: user 7 approves message 10, then user 8. *)
Lemma pin_executor_runs_at_the_cap_th_vote_witness :
  pin_executor_runs
    (trace (on_reaction_add (Sample.platform 1210%float true) (approval 10) 8
              (state (approvals 10 [(Sample.platform 1200%float true, 7)]
                        (Sample.voting 2))))) = 1%nat
  ∧ voting_sessions
      (state (on_reaction_add (Sample.platform 1210%float true) (approval 10) 8
                (state (approvals 10 [(Sample.platform 1200%float true, 7)]
                          (Sample.voting 2))))) !! 10 =
      (if negb (rate_limited (Sample.platform 1210%float true) Sample.target
                  (Sample.voting 2))
          && pin (Sample.platform 1210%float true) Sample.target
       then None
       else Some (approved_by Sample.target
                    ([(Sample.platform 1200%float true, 7)].*2 ++ [8]))).
Proof.
  refine (let H := pin_executor_runs_at_the_cap_th_vote
                     (Sample.voting 2) 10 Sample.target
                     [(Sample.platform 1200%float true, 7)]
                     (Sample.platform 1210%float true) 8 _ _ _ _ in
          conj (proj1 (proj2 H)) (proj2 (proj2 (proj2 H)))).
  - vm_compute. reflexivity.
  - apply (bool_decide_unpack _). vm_compute. exact I.
  - apply (bool_decide_unpack _). vm_compute. exact I.
  - vm_compute. reflexivity.
Defined.

(** C3, as stated, fails: with [confirm_cap = 1], the first distinct
    approval of message 10 comes two seconds after the same target was
    pinned through message 11.  The pin executor is run and denies the pin
    for the cooldown, and the session is not retired; it is retired at the
    second distinct approval, one vote more than the cap. *)
Lemma rate_limited_cap_th_vote_does_not_retire :
  confirm_cap Sample.pinned_via_11 = 1
  ∧ voting_sessions Sample.pinned_via_11 !! 10 = Some (new_session Sample.target)
  ∧ Sample.first_vote_on_10.2 =
      [ LockAcquire; Log (LogVoteAdded 7 10 1); Log (LogRateLimited 5); LockRelease ]
  ∧ voting_sessions Sample.first_vote_on_10.1 !! 10 =
      Some {| target_message := Sample.target; votes := {[7]}; vote_count := 1 |}
  ∧ Sample.second_vote_on_10.2 =
      [ LockAcquire; Log (LogVoteAdded 8 10 2);
        PinMessage Sample.target; Log (LogPinned 50); LockRelease ]
  ∧ voting_sessions Sample.second_vote_on_10.1 !! 10 = None.
Proof. repeat split; vm_compute; reflexivity. Qed.

(** ** Platform calls and the session lock *)

Lemma calls_under_lock_reactions P msg_id emojis :
  calls_under_lock false (reaction_effects P msg_id emojis) = [].
Proof.
  induction emojis as [|e emojis IH]; [reflexivity|].
  cbn [reaction_effects flat_map]. fold (reaction_effects P msg_id emojis).
  destruct (add_reaction P e); cbn; exact IH.
Qed.

Lemma calls_under_lock_pin_attempt P m b :
  calls_under_lock false (trace (pin_message_safely P m b)) = [].
Proof.
  rewrite pin_message_safely_unfold.
  destruct (rate_limited P m b); [|destruct (pin P m)]; reflexivity.
Qed.

Lemma on_message_lock_free P msg b :
  calls_under_lock false (trace (on_message P msg b)) = [].
Proof.
  unfold on_message. unfold bind at 1. unfold get at 1.
  destruct (bool_decide (author msg = user b) || bool_decide (reference msg = None));
    [reflexivity|].
  destruct (negb (mentions_bot_first (user b) (content msg))); [reflexivity|].
  destruct (reference msg) as [ref|]; [|reflexivity].
  unfold bind at 1. unfold emit at 1.
  destruct (fetch_message P ref) as [target| |]; [|reflexivity..].
  destruct (confirm_cap b =? 0).
  - unfold bind, ret.
    pose proof (calls_under_lock_pin_attempt P target b) as H.
    destruct (pin_message_safely P target b) as [[ok b1] tr].
    run_proj. cbn [fst snd] in *. rewrite app_nil_r. cbn. exact H.
  - unfold bind at 1.
    rewrite (surjective_pairing (with_lock _ _)).
    rewrite (surjective_pairing (with_lock _ _).1).
    rewrite for_each_reactions. unfold with_lock, bind, emit, modify, ret.
    run_proj. cbn [fst snd app calls_under_lock andb is_platform_call].
    apply calls_under_lock_reactions.
Qed.

Lemma on_reaction_remove_lock_free r u b :
  calls_under_lock false (trace (on_reaction_remove r u b)) = [].
Proof.
  unfold on_reaction_remove. unfold bind at 1. unfold get at 1.
  destruct (_ || _); [reflexivity|].
  unfold with_lock, bind, get, emit, ret, modify.
  destruct (voting_sessions b !! reaction_message r) as [s|]; [|reflexivity].
  destruct (remove_vote u s) as [[] s']; reflexivity.
Qed.

Lemma for_each_delete_trace (keys : list Z) (b : PinBot) :
  trace (for_each keys
           (λ msg_id, modify (set_sessions (delete msg_id)) ;;;
                      emit (Log (LogCleanedUp msg_id))) b)
  = (λ k, Log (LogCleanedUp k)) <$> keys.
Proof.
  revert b. induction keys as [|k keys IH]; intros b; [reflexivity|].
  cbn [for_each]. unfold bind at 1. unfold bind at 1.
  unfold modify at 1, emit at 1. cbn [fst snd].
  specialize (IH (set_sessions (delete k) b)).
  destruct (for_each keys _ (set_sessions (delete k) b)) as [[[] b2] t2].
  run_proj. rewrite trace_run in IH. by rewrite IH.
Qed.

Lemma calls_under_lock_log_lines held (keys : list Z) tr :
  calls_under_lock held (((λ k, Log (LogCleanedUp k)) <$> keys) ++ tr)
  = calls_under_lock held tr.
Proof. induction keys as [|k keys IH]; [reflexivity|]. cbn. by destruct held. Qed.

Lemma cleanup_pass_lock_free P b :
  calls_under_lock false (trace (cleanup_pass P b)) = [].
Proof.
  unfold cleanup_pass, with_lock.
  unfold bind at 1. unfold emit at 1.
  unfold bind at 1. unfold bind at 1. unfold get at 1.
  pose proof (for_each_delete_trace
    (filter (λ kv, too_old (loop_time P) kv.2 = true)
       (map_to_list (voting_sessions b))).*1 b) as H.
  destruct (for_each _ _ b) as [[[] b2] t2].
  rewrite trace_run in H. subst t2.
  unfold bind, emit, ret. run_proj. cbn [fst snd app calls_under_lock].
  apply calls_under_lock_log_lines.
Qed.

(** C8 (amended): [on_message], [on_reaction_remove] and the sweep make no
    platform call while the session lock is held.  [on_reaction_add] makes
    all of its platform calls while holding the lock: it makes none, or the
    one [message.pin()] on the target of the session voted on. *)
Theorem only_reaction_add_calls_platform_under_lock
    (P : Platform) (msg : Message) (r : Reaction) (u : Z) (b : PinBot) :
  calls_under_lock false (trace (on_message P msg b)) = []
  ∧ calls_under_lock false (trace (on_reaction_remove r u b)) = []
  ∧ calls_under_lock false (trace (cleanup_pass P b)) = []
  ∧ calls_under_lock false (trace (on_reaction_add P r u b)) =
      List.filter is_platform_call (trace (on_reaction_add P r u b))
  ∧ (calls_under_lock false (trace (on_reaction_add P r u b)) = []
     ∨ ∃ s, voting_sessions b !! reaction_message r = Some s
            ∧ calls_under_lock false (trace (on_reaction_add P r u b)) =
                [PinMessage (target_message s)]).
Proof.
  split; [apply on_message_lock_free|].
  split; [apply on_reaction_remove_lock_free|].
  split; [apply cleanup_pass_lock_free|].
  destruct (decide (u ≠ user b ∧ emoji r = approve_emoji)) as [[Hu He]|Hskip].
  - rewrite on_reaction_add_unfold by done.
    destruct (voting_sessions b !! reaction_message r) as [s|]; [|by split; [|left]].
    unfold add_vote. destruct (decide (u ∉ votes s)); cbn [fst snd];
      [|by split; [|left]].
    destruct (confirm_cap b <=? _); [|by split; [|left]].
    cbn zeta. run_proj. cbn [target_message]. rewrite pin_message_safely_unfold.
    destruct (rate_limited _ _ _); [|destruct (pin P _)]; run_proj;
      (split; [reflexivity|]); [by left|right; by exists s..].
  - assert (Hout : on_reaction_add P r u b = (tt, b, [])).
    { unfold on_reaction_add. unfold bind at 1. unfold get at 1.
      destruct (decide (u = user b)) as [->|Hu].
      - by rewrite bool_decide_eq_true_2.
      - rewrite bool_decide_eq_false_2 by done.
        destruct (String.eqb_spec (emoji r) approve_emoji) as [He|He]; [|done].
        destruct Hskip. done. }
    rewrite Hout. by split; [|left].
Qed.

(** C8, as stated, fails: at the threshold, [on_reaction_add] calls
    [message.pin()] between acquiring and releasing the session lock. *)
Lemma pin_call_is_made_while_holding_lock :
  trace (on_reaction_add (Sample.platform 1200%float true) (approval 10) 7
           (Sample.voting 1)) =
    [ LockAcquire; Log (LogVoteAdded 7 10 1);
      PinMessage Sample.target; Log (LogPinned 50); LockRelease ]
  ∧ calls_under_lock false
      (trace (on_reaction_add (Sample.platform 1200%float true) (approval 10) 7
                (Sample.voting 1))) =
      [PinMessage Sample.target].
Proof. split; vm_compute; reflexivity. Qed.

(** ** Start-up *)

(** C10: when [CONFIRM_CAP] is not in the environment (and [TOKEN] is set
    to a non-empty string), [main] logs no error and starts the bot with a
    confirmation cap of 3, the default it passes to [os.getenv]. *)
Theorem unset_confirm_cap_defaults_to_three
    (py_int : string → option Z) (environ : gmap string string) (token : string) :
  py_int "3" = Some 3 →
  environ !! "TOKEN" = Some token →
  token ≠ "" →
  environ !! "CONFIRM_CAP" = None →
  main py_int environ = RunBot 3 token.
Proof.
  intros Hint Htok Hne Hcap.
  unfold main. rewrite Htok, bool_decide_eq_false_2 by done.
  rewrite Hcap. cbn [default from_option id]. rewrite Hint. reflexivity.
Qed.

(** The statement for an environment that holds only [TOKEN], with [int]
    read as [decimal_int]. *)
Lemma unset_confirm_cap_defaults_to_three_witness :
  main decimal_int {[ "TOKEN" := "secret" ]} = RunBot 3 "secret".
Proof.
  apply (unset_confirm_cap_defaults_to_three decimal_int {[ "TOKEN" := "secret" ]} "secret").
  - reflexivity.
  - vm_compute. reflexivity.
  - discriminate.
  - vm_compute. reflexivity.
Defined.

(** * Further properties of the code *)

(** ** The cap indicator *)

Lemma number_emojis_NoDup : NoDup number_emojis.
Proof. apply (bool_decide_unpack _). vm_compute. exact I. Qed.

Lemma get_number_emoji_in_range num :
  1 ≤ num ≤ 10 → number_emojis !! Z.to_nat (num - 1) = Some (get_number_emoji num).
Proof.
  intros H. unfold get_number_emoji.
  rewrite (proj2 (Z.leb_le 1 num)), (proj2 (Z.leb_le num 10)) by lia. cbn [andb].
  destruct (number_emojis !! Z.to_nat (num - 1)) as [e|] eqn:He; [reflexivity|].
  apply lookup_ge_None in He. cbn [length number_emojis] in He. lia.
Qed.

(** X1: [get_number_emoji] returns the unknown-value placeholder exactly
    for the numbers outside 1..10. *)
Theorem number_emoji_placeholder_iff_out_of_range (num : Z) :
  get_number_emoji num = "❓" ↔ ¬ (1 ≤ num ≤ 10).
Proof.
  split.
  - intros Hq Hin. pose proof (get_number_emoji_in_range num Hin) as Hl.
    rewrite Hq in Hl. apply list_elem_of_lookup_2 in Hl.
    revert Hl. apply (bool_decide_unpack _). vm_compute. exact I.
  - intros Hout. unfold get_number_emoji.
    destruct (1 <=? num) eqn:H1; [|reflexivity].
    destruct (num <=? 10) eqn:H2; [|reflexivity].
    apply Z.leb_le in H1, H2. destruct Hout. lia.
Qed.

(** X2: within 1..10, different caps are shown by different emojis. *)
Theorem number_emoji_identifies_cap (a c : Z) :
  1 ≤ a ≤ 10 → 1 ≤ c ≤ 10 →
  get_number_emoji a = get_number_emoji c → a = c.
Proof.
  intros Ha Hc Heq.
  pose proof (get_number_emoji_in_range a Ha) as Hla.
  pose proof (get_number_emoji_in_range c Hc) as Hlc.
  rewrite <- Heq in Hlc.
  pose proof (NoDup_lookup _ _ _ _ number_emojis_NoDup Hla Hlc). lia.
Qed.

(** The statement at caps 3 and 3: the hypotheses hold and the emoji is the
    third of the list. *)
Lemma number_emoji_identifies_cap_witness : 3 = 3.
Proof.
  apply (number_emoji_identifies_cap 3 3); [lia | lia | reflexivity].
Defined.

(** ** Start-up *)

(** X3: [main] starts the bot with cap [cap] and token [token] exactly when
    [TOKEN] is set to the non-empty [token], the text of [CONFIRM_CAP] (or
    "3" when unset) reads as the integer [cap], and [0 <= cap <= 10]; in
    every other case no bot is started. *)
Theorem main_starts_only_with_valid_configuration
    (py_int : string → option Z) (environ : gmap string string)
    (cap : Z) (token : string) :
  main py_int environ = RunBot cap token ↔
    environ !! "TOKEN" = Some token
    ∧ token ≠ ""
    ∧ py_int (default "3" (environ !! "CONFIRM_CAP")) = Some cap
    ∧ 0 ≤ cap ≤ 10.
Proof.
  unfold main. split.
  - destruct (environ !! "TOKEN") as [tok|]; [|discriminate].
    destruct (decide (tok = "")) as [->|Hne].
    { rewrite bool_decide_eq_true_2 by done. discriminate. }
    rewrite bool_decide_eq_false_2 by done.
    destruct (py_int _) as [n|]; [|discriminate].
    destruct (0 <=? n) eqn:H0; [|discriminate].
    destruct (n <=? 10) eqn:H1; [|discriminate].
    cbn [andb negb]. intros [= -> ->].
    apply Z.leb_le in H0, H1. done.
  - intros (-> & Hne & -> & H0 & H1).
    rewrite bool_decide_eq_false_2 by done.
    rewrite (proj2 (Z.leb_le 0 cap)), (proj2 (Z.leb_le cap 10)) by done.
    reflexivity.
Qed.

(** ** The handlers, case by case *)

Lemma on_message_cases P msg b :
  on_message P msg b =
    match trigger_reference b msg with
    | None => (tt, b, [])
    | Some ref =>
      match fetch_message P ref with
      | Fetched target =>
        if confirm_cap b =? 0 then
          (tt, state (pin_message_safely P target b),
           FetchMessage ref :: trace (pin_message_safely P target b))
        else
          (tt, set_sessions <[message_id msg := new_session target]> b,
           FetchMessage ref :: LockAcquire :: LockRelease
             :: reaction_effects P (message_id msg) (vote_reactions (confirm_cap b)))
      | FetchNotFound =>
        (tt, b, [FetchMessage ref;
                 Reply (message_id msg) "❌ Referenced message not found!"])
      | FetchHTTPException =>
        (tt, b, [FetchMessage ref; Log LogHttpError;
                 Reply (message_id msg)
                   "❌ An error occurred while processing your request."])
      end
    end.
Proof.
  unfold trigger_reference.
  destruct (bool_decide (author msg = user b)) eqn:Ha.
  { unfold on_message. unfold bind at 1. unfold get at 1. by rewrite Ha. }
  destruct (reference msg) as [ref|] eqn:Hr.
  2:{ unfold on_message. unfold bind at 1. unfold get at 1.
      rewrite Ha, Hr. by rewrite bool_decide_eq_true_2. }
  rewrite bool_decide_eq_false_2 by done. cbn [orb].
  destruct (mentions_bot_first (user b) (content msg)) eqn:Hm.
  2:{ unfold on_message. unfold bind at 1. unfold get at 1.
      rewrite Ha, Hr, Hm. by rewrite bool_decide_eq_false_2. }
  cbn [negb]. apply bool_decide_eq_false in Ha.
  destruct (fetch_message P ref) as [target| |] eqn:Hf.
  - by apply on_message_unfold.
  - unfold on_message. unfold bind at 1. unfold get at 1.
    rewrite bool_decide_eq_false_2 by done. rewrite Hr, Hm.
    rewrite bool_decide_eq_false_2 by done. cbn [orb negb].
    unfold bind, emit. rewrite Hf. reflexivity.
  - unfold on_message. unfold bind at 1. unfold get at 1.
    rewrite bool_decide_eq_false_2 by done. rewrite Hr, Hm.
    rewrite bool_decide_eq_false_2 by done. cbn [orb negb].
    unfold bind, emit. rewrite Hf. reflexivity.
Qed.

Lemma counts_as_vote_true b r u :
  counts_as_vote b r u = true ↔ u ≠ user b ∧ emoji r = approve_emoji.
Proof.
  unfold counts_as_vote. rewrite negb_true_iff, orb_false_iff, negb_false_iff.
  rewrite bool_decide_eq_false, String.eqb_eq. reflexivity.
Qed.

Lemma on_reaction_add_skipped P r u b :
  counts_as_vote b r u = false → on_reaction_add P r u b = (tt, b, []).
Proof.
  unfold counts_as_vote, on_reaction_add. intros H%negb_false_iff.
  unfold bind at 1. unfold get at 1. by rewrite H.
Qed.

Lemma on_reaction_remove_skipped r u b :
  counts_as_vote b r u = false → on_reaction_remove r u b = (tt, b, []).
Proof.
  unfold counts_as_vote, on_reaction_remove. intros H%negb_false_iff.
  unfold bind at 1. unfold get at 1. by rewrite H.
Qed.

Lemma on_reaction_remove_unfold r u b :
  counts_as_vote b r u = true →
  on_reaction_remove r u b =
    match voting_sessions b !! reaction_message r with
    | None => (tt, b, [LockAcquire; LockRelease])
    | Some s =>
      let b1 := set_sessions <[reaction_message r := (remove_vote u s).2]> b in
      if (remove_vote u s).1 then
        (tt, b1,
         [LockAcquire;
          Log (LogVoteRemoved u (reaction_message r) (vote_count (remove_vote u s).2));
          LockRelease])
      else (tt, b1, [LockAcquire; LockRelease])
    end.
Proof.
  unfold counts_as_vote, on_reaction_remove. intros H%negb_true_iff.
  unfold bind at 1. unfold get at 1. rewrite H.
  unfold with_lock, bind, get, emit, ret, modify.
  destruct (voting_sessions b !! reaction_message r) as [s|]; [|reflexivity].
  destruct (remove_vote u s) as [[] s']; reflexivity.
Qed.

Lemma on_reaction_add_cases P r u b :
  counts_as_vote b r u = true →
  on_reaction_add P r u b =
    match voting_sessions b !! reaction_message r with
    | None => (tt, b, [LockAcquire; LockRelease])
    | Some s =>
      let b1 := set_sessions <[reaction_message r := (add_vote u s).2]> b in
      if (add_vote u s).1 then
        let line := Log (LogVoteAdded u (reaction_message r) (vote_count (add_vote u s).2)) in
        if confirm_cap b <=? vote_count (add_vote u s).2 then
          let attempt := pin_message_safely P (target_message (add_vote u s).2) b1 in
          (tt,
           if result attempt
           then set_sessions (delete (reaction_message r)) (state attempt)
           else state attempt,
           LockAcquire :: line :: trace attempt ++ [LockRelease])
        else (tt, b1, [LockAcquire; line; LockRelease])
      else (tt, b1, [LockAcquire; LockRelease])
    end.
Proof. intros [Hu He]%counts_as_vote_true. by apply on_reaction_add_unfold. Qed.

(** ** Votes given and withdrawn *)

Lemma remove_after_add u s : u ∉ votes s → remove_vote u (with_vote u s) = (true, s).
Proof.
  intros Hf. unfold remove_vote, with_vote. cbn [votes vote_count target_message].
  rewrite decide_True by (apply elem_of_union_r, elem_of_singleton; reflexivity).
  destruct s as [t vs n]. cbn [votes vote_count target_message] in *.
  f_equal. f_equal; [|lia].
  apply set_eq. intros x.
  rewrite elem_of_difference, elem_of_union, elem_of_singleton.
  destruct (decide (x = u)) as [->|]; tauto.
Qed.

(** X4: on a session, a vote followed by its withdrawal, and a withdrawal
    followed by the same user's vote, both report a change and give back
    the session they started from, count included. *)
Theorem vote_and_withdrawal_cancel (u : Z) (s : VotingSession) :
  (u ∉ votes s → remove_vote u (add_vote u s).2 = (true, s))
  ∧ (u ∈ votes s → add_vote u (remove_vote u s).2 = (true, s)).
Proof.
  split; intros H.
  - rewrite add_vote_fresh by done. by apply remove_after_add.
  - unfold remove_vote. rewrite decide_True by done. cbn [snd].
    unfold add_vote. cbn [votes vote_count target_message].
    rewrite decide_True by (rewrite elem_of_difference, elem_of_singleton; tauto).
    destruct s as [t vs n]. cbn [votes vote_count target_message] in *.
    f_equal. f_equal; [|lia].
    apply set_eq. intros x.
    rewrite elem_of_union, elem_of_difference, elem_of_singleton.
    destruct (decide (x = u)) as [->|]; tauto.
Qed.

(** The two halves at user 7: on a fresh session, and on the session that
    holds only that user's vote. *)
Lemma vote_and_withdrawal_cancel_witness :
  remove_vote 7 (add_vote 7 (new_session Sample.target)).2
    = (true, new_session Sample.target)
  ∧ add_vote 7 (remove_vote 7 (approved_by Sample.target [7])).2
    = (true, approved_by Sample.target [7]).
Proof.
  split.
  - apply (vote_and_withdrawal_cancel 7 (new_session Sample.target)).
    cbn [votes new_session]. apply not_elem_of_empty.
  - apply (vote_and_withdrawal_cancel 7 (approved_by Sample.target [7])).
    cbn [votes approved_by]. apply elem_of_list_to_set, list_elem_of_singleton.
    reflexivity.
Defined.

(** X5: for a stored session and a user other than the bot who has not
    voted on it yet, while the count stays below the cap, that user's
    approval followed by the removal of that reaction leaves the whole bot
    state as it was before the two events. *)
Theorem approval_then_removal_restores_state
    (P : Platform) (k u : Z) (b : PinBot) (s : VotingSession) :
  u ≠ user b →
  voting_sessions b !! k = Some s →
  u ∉ votes s →
  vote_count s + 1 < confirm_cap b →
  state (on_reaction_remove (approval k) u
           (state (on_reaction_add P (approval k) u b))) = b.
Proof.
  intros Hu Hs Hf Hlt.
  rewrite (on_reaction_add_below_cap P k u b s) by done. run_proj.
  rewrite on_reaction_remove_unfold.
  2:{ apply counts_as_vote_true. by destruct b. }
  cbn [approval reaction_message voting_sessions set_sessions].
  rewrite lookup_insert_eq, remove_after_add by done. cbn [fst snd]. run_proj.
  rewrite set_sessions_insert_insert. by apply set_sessions_insert_id.
Qed.

(** User 7 approves and then withdraws on the sample session 10, cap 3. *)
Lemma approval_then_removal_restores_state_witness :
  state (on_reaction_remove (approval 10) 7
           (state (on_reaction_add (Sample.platform 1200%float true) (approval 10) 7
                     (Sample.voting 3)))) = Sample.voting 3.
Proof.
  apply (approval_then_removal_restores_state
           (Sample.platform 1200%float true) 10 7 (Sample.voting 3)
           (new_session Sample.target)).
  - vm_compute. discriminate.
  - vm_compute. reflexivity.
  - cbn [votes new_session]. apply not_elem_of_empty.
  - vm_compute. reflexivity.
Defined.

(** X6: a reaction that is the bot's own, or is not the approval emoji, or is
    on a message without a session, changes nothing in the bot state and
    causes no platform call, whether it is added or removed. *)
Theorem stray_reactions_change_nothing
    (P : Platform) (r : Reaction) (u : Z) (b : PinBot) :
  u = user b ∨ emoji r ≠ approve_emoji ∨ voting_sessions b !! reaction_message r = None →
  state (on_reaction_add P r u b) = b
  ∧ state (on_reaction_remove r u b) = b
  ∧ List.filter is_platform_call (trace (on_reaction_add P r u b)) = []
  ∧ List.filter is_platform_call (trace (on_reaction_remove r u b)) = [].
Proof.
  intros H. destruct (counts_as_vote b r u) eqn:Hc.
  - apply counts_as_vote_true in Hc as Hc'. destruct Hc' as [Hu He].
    destruct H as [?|[?|Hnone]]; [done..|].
    rewrite on_reaction_add_cases, on_reaction_remove_unfold by done.
    rewrite Hnone. done.
  - rewrite on_reaction_add_skipped, on_reaction_remove_skipped by done. done.
Qed.

(** A reaction on message 77, which has no session. *)
Lemma stray_reactions_change_nothing_witness :
  state (on_reaction_add (Sample.platform 1200%float true) (approval 77) 7
           (Sample.voting 3)) = Sample.voting 3
  ∧ state (on_reaction_remove (approval 77) 7 (Sample.voting 3)) = Sample.voting 3
  ∧ List.filter is_platform_call
      (trace (on_reaction_add (Sample.platform 1200%float true) (approval 77) 7
                (Sample.voting 3))) = []
  ∧ List.filter is_platform_call
      (trace (on_reaction_remove (approval 77) 7 (Sample.voting 3))) = [].
Proof.
  apply (stray_reactions_change_nothing
           (Sample.platform 1200%float true) (approval 77) 7 (Sample.voting 3)).
  right. right. vm_compute. reflexivity.
Defined.

(** X7: an approval by a user whose vote the session already holds changes
    nothing and does not run the pin executor, even when the session's
    count has reached the cap (after a pin that was denied or failed). *)
Theorem repeated_approval_does_not_retry_pin
    (P : Platform) (r : Reaction) (u : Z) (b : PinBot) (s : VotingSession) :
  voting_sessions b !! reaction_message r = Some s →
  u ∈ votes s →
  state (on_reaction_add P r u b) = b
  ∧ pin_executor_runs (trace (on_reaction_add P r u b)) = 0%nat
  ∧ List.filter is_platform_call (trace (on_reaction_add P r u b)) = [].
Proof.
  intros Hs Hin. destruct (counts_as_vote b r u) eqn:Hc.
  - rewrite on_reaction_add_cases by done. rewrite Hs.
    rewrite add_vote_present by done. cbn [fst snd]. run_proj.
    split; [by apply set_sessions_insert_id | done].
  - rewrite on_reaction_add_skipped by done. done.
Qed.

(** With cap 1, user 7's approval met a failing pin; user 7 approves again. *)
Lemma repeated_approval_does_not_retry_pin_witness :
  state (on_reaction_add (Sample.platform 1300%float true) (approval 10) 7
           (state (on_reaction_add (Sample.platform 1200%float false) (approval 10) 7
                     (Sample.voting 1))))
    = state (on_reaction_add (Sample.platform 1200%float false) (approval 10) 7
               (Sample.voting 1))
  ∧ pin_executor_runs
      (trace (on_reaction_add (Sample.platform 1300%float true) (approval 10) 7
                (state (on_reaction_add (Sample.platform 1200%float false) (approval 10) 7
                          (Sample.voting 1))))) = 0%nat
  ∧ List.filter is_platform_call
      (trace (on_reaction_add (Sample.platform 1300%float true) (approval 10) 7
                (state (on_reaction_add (Sample.platform 1200%float false) (approval 10) 7
                          (Sample.voting 1))))) = [].
Proof.
  apply (repeated_approval_does_not_retry_pin
           (Sample.platform 1300%float true) (approval 10) 7
           (state (on_reaction_add (Sample.platform 1200%float false) (approval 10) 7
                     (Sample.voting 1)))
           (approved_by Sample.target [7])).
  - vm_compute. reflexivity.
  - cbn [votes approved_by]. apply elem_of_list_to_set, list_elem_of_singleton.
    reflexivity.
Defined.

Lemma remove_vote_target u s : target_message (remove_vote u s).2 = target_message s.
Proof. unfold remove_vote. by destruct (decide _). Qed.

Lemma add_vote_target u s : target_message (add_vote u s).2 = target_message s.
Proof. unfold add_vote. by destruct (decide _). Qed.

Lemma on_reaction_remove_state r u b :
  state (on_reaction_remove r u b) = b
  ∨ ∃ s, voting_sessions b !! reaction_message r = Some s
         ∧ state (on_reaction_remove r u b) =
             set_sessions <[reaction_message r := (remove_vote u s).2]> b.
Proof.
  destruct (counts_as_vote b r u) eqn:Hc.
  - rewrite on_reaction_remove_unfold by done.
    destruct (voting_sessions b !! reaction_message r) as [s|]; [|by left].
    right. exists s. split; [done|]. by destruct (remove_vote u s).1.
  - left. by rewrite on_reaction_remove_skipped.
Qed.

Lemma on_reaction_remove_quiet r u b :
  List.filter is_platform_call (trace (on_reaction_remove r u b)) = []
  ∧ pin_executor_runs (trace (on_reaction_remove r u b)) = 0%nat.
Proof.
  destruct (counts_as_vote b r u) eqn:Hc.
  - rewrite on_reaction_remove_unfold by done.
    destruct (voting_sessions b !! reaction_message r) as [s|]; [|done].
    cbn zeta. by destruct (remove_vote u s).1.
  - by rewrite on_reaction_remove_skipped.
Qed.

(** X8: removing a reaction never retires a session, never runs the pin
    executor and never calls the platform: the table keeps the same keys,
    each session keeps its target, and the cooldown table is untouched. *)
Theorem reaction_removal_never_retires_or_pins (r : Reaction) (u : Z) (b : PinBot) :
  dom (voting_sessions (state (on_reaction_remove r u b))) = dom (voting_sessions b)
  ∧ (target_message <$> voting_sessions (state (on_reaction_remove r u b)))
      = (target_message <$> voting_sessions b)
  ∧ pin_cooldown (state (on_reaction_remove r u b)) = pin_cooldown b
  ∧ pin_executor_runs (trace (on_reaction_remove r u b)) = 0%nat
  ∧ List.filter is_platform_call (trace (on_reaction_remove r u b)) = [].
Proof.
  destruct (on_reaction_remove_quiet r u b) as [Hcalls Hruns].
  destruct (on_reaction_remove_state r u b) as [->|(s & Hs & ->)]; [done|].
  cbn [voting_sessions set_sessions pin_cooldown].
  split; [apply dom_insert_lookup_L; by rewrite Hs|].
  split; [|done].
  rewrite fmap_insert, remove_vote_target.
  apply insert_id. by rewrite lookup_fmap, Hs.
Qed.

(** ** Trigger messages that do not start a vote *)

(** X9: a message written by the bot itself, or that is not a reply, or
    that does not address the bot at its very start, is dropped before any
    platform call: nothing is fetched, nothing changes. *)
Theorem non_trigger_messages_are_dropped (P : Platform) (msg : Message) (b : PinBot) :
  author msg = user b ∨ reference msg = None
    ∨ mentions_bot_first (user b) (content msg) = false →
  on_message P msg b = (tt, b, []).
Proof.
  intros H. rewrite on_message_cases. unfold trigger_reference.
  destruct H as [H|[H|H]].
  - by rewrite (bool_decide_eq_true_2 _ H).
  - rewrite (bool_decide_eq_true_2 (reference msg = None) H).
    by rewrite orb_true_r.
  - rewrite H. cbn [negb]. by destruct (_ || _).
Qed.

(** A message that mentions the bot in the middle of its text. *)
Lemma non_trigger_messages_are_dropped_witness :
  on_message (Sample.platform 1100%float true)
    {| message_id := 12; author := 4; content := "please <@999> pin this";
       reference := Some 50; channel_id := 5; created_at := 1100%float |}
    (PinBot_init 3 999)
  = (tt, PinBot_init 3 999, []).
Proof.
  apply (non_trigger_messages_are_dropped (Sample.platform 1100%float true)).
  right. right. vm_compute. reflexivity.
Defined.

(** X10: when the referenced message cannot be fetched ([NotFound] or
    another HTTP error), the bot state is unchanged (no session is made),
    the pin executor is not run, and the only platform calls are the fetch
    and one reply to the trigger message. *)
Theorem failed_fetch_creates_no_session
    (P : Platform) (msg : Message) (b : PinBot) (ref : Z) :
  author msg ≠ user b →
  reference msg = Some ref →
  mentions_bot_first (user b) (content msg) = true →
  fetch_message P ref = FetchNotFound ∨ fetch_message P ref = FetchHTTPException →
  state (on_message P msg b) = b
  ∧ pin_executor_runs (trace (on_message P msg b)) = 0%nat
  ∧ ∃ text, List.filter is_platform_call (trace (on_message P msg b))
            = [FetchMessage ref; Reply (message_id msg) text].
Proof.
  intros Ha Hr Hm Hf. rewrite on_message_cases. unfold trigger_reference.
  rewrite bool_decide_eq_false_2 by done.
  rewrite Hr, bool_decide_eq_false_2 by done. rewrite Hm. cbn [orb negb].
  destruct Hf as [-> | ->]; run_proj; (split; [done|]); (split; [done|]); eauto.
Qed.

(** The sample trigger when the platform no longer has message 50. *)
Lemma failed_fetch_creates_no_session_witness :
  state (on_message
           {| loop_time := 1100%float; fetch_message := λ _, FetchNotFound;
              pin := λ _, true; add_reaction := λ _, true |}
           (Sample.trigger 10) (PinBot_init 3 999)) = PinBot_init 3 999
  ∧ pin_executor_runs
      (trace (on_message
                {| loop_time := 1100%float; fetch_message := λ _, FetchNotFound;
                   pin := λ _, true; add_reaction := λ _, true |}
                (Sample.trigger 10) (PinBot_init 3 999))) = 0%nat
  ∧ ∃ text, List.filter is_platform_call
              (trace (on_message
                        {| loop_time := 1100%float; fetch_message := λ _, FetchNotFound;
                           pin := λ _, true; add_reaction := λ _, true |}
                        (Sample.trigger 10) (PinBot_init 3 999)))
            = [FetchMessage 50; Reply (message_id (Sample.trigger 10)) text].
Proof.
  apply (failed_fetch_creates_no_session
           {| loop_time := 1100%float; fetch_message := λ _, FetchNotFound;
              pin := λ _, true; add_reaction := λ _, true |}
           (Sample.trigger 10) (PinBot_init 3 999) 50).
  - vm_compute. discriminate.
  - reflexivity.
  - vm_compute. reflexivity.
  - left. reflexivity.
Defined.

Lemma platform_calls_of_reactions P msg_id emojis :
  List.filter is_platform_call (reaction_effects P msg_id emojis)
  = AddReaction msg_id <$> emojis.
Proof.
  induction emojis as [|e emojis IH]; [reflexivity|].
  cbn [reaction_effects flat_map]. fold (reaction_effects P msg_id emojis).
  cbn [app List.filter is_platform_call fmap list_fmap].
  rewrite List.filter_app, IH. by destruct (add_reaction P e).
Qed.

(** X11: when a vote is started, the three reactions (approve, slash, cap
    indicator) are all requested, in that order, whichever of them the
    platform refuses; a refused reaction does not undo the session. *)
Theorem refused_reactions_do_not_stop_the_vote
    (P : Platform) (msg : Message) (b : PinBot) (ref : Z) (target : Message) :
  author msg ≠ user b →
  reference msg = Some ref →
  mentions_bot_first (user b) (content msg) = true →
  fetch_message P ref = Fetched target →
  confirm_cap b ≠ 0 →
  List.filter is_platform_call (trace (on_message P msg b))
    = [ FetchMessage ref;
        AddReaction (message_id msg) "✅";
        AddReaction (message_id msg) "<:slash:1284496769551568927>";
        AddReaction (message_id msg) (get_number_emoji (confirm_cap b)) ]
  ∧ state (on_message P msg b)
    = set_sessions <[message_id msg := new_session target]> b.
Proof.
  intros Ha Hr Hm Hf Hcap.
  rewrite (on_message_unfold P msg b ref target) by done.
  rewrite (proj2 (Z.eqb_neq _ _) Hcap). run_proj. split; [|reflexivity].
  cbn [List.filter is_platform_call]. by rewrite platform_calls_of_reactions.
Qed.

(** The sample trigger on a platform that refuses every reaction. *)
Lemma refused_reactions_do_not_stop_the_vote_witness :
  List.filter is_platform_call
    (trace (on_message
              {| loop_time := 1100%float; fetch_message := λ _, Fetched Sample.target;
                 pin := λ _, true; add_reaction := λ _, false |}
              (Sample.trigger 10) (PinBot_init 3 999)))
    = [ FetchMessage 50;
        AddReaction (message_id (Sample.trigger 10)) "✅";
        AddReaction (message_id (Sample.trigger 10)) "<:slash:1284496769551568927>";
        AddReaction (message_id (Sample.trigger 10))
          (get_number_emoji (confirm_cap (PinBot_init 3 999))) ]
  ∧ state (on_message
             {| loop_time := 1100%float; fetch_message := λ _, Fetched Sample.target;
                pin := λ _, true; add_reaction := λ _, false |}
             (Sample.trigger 10) (PinBot_init 3 999))
    = set_sessions <[message_id (Sample.trigger 10) := new_session Sample.target]>
        (PinBot_init 3 999).
Proof.
  apply (refused_reactions_do_not_stop_the_vote
           {| loop_time := 1100%float; fetch_message := λ _, Fetched Sample.target;
              pin := λ _, true; add_reaction := λ _, false |}
           (Sample.trigger 10) (PinBot_init 3 999) 50 Sample.target).
  - vm_compute. discriminate.
  - reflexivity.
  - vm_compute. reflexivity.
  - reflexivity.
  - vm_compute. discriminate.
Defined.

(** ** What a handler may change in the session table *)

Lemma on_message_sessions P msg b :
  voting_sessions (state (on_message P msg b)) = voting_sessions b
  ∨ ∃ target, confirm_cap b ≠ 0
      ∧ voting_sessions (state (on_message P msg b))
        = <[message_id msg := new_session target]> (voting_sessions b).
Proof.
  rewrite on_message_cases.
  destruct (trigger_reference b msg) as [ref|]; [|by left].
  destruct (fetch_message P ref) as [target| |]; [|by left..].
  destruct (confirm_cap b =? 0) eqn:Hcap; run_proj.
  - left. apply pin_message_safely_keeps_config.
  - right. exists target. by apply Z.eqb_neq in Hcap.
Qed.

Lemma on_reaction_add_sessions P r u b :
  voting_sessions (state (on_reaction_add P r u b)) = voting_sessions b
  ∨ ∃ s, voting_sessions b !! reaction_message r = Some s
      ∧ (voting_sessions (state (on_reaction_add P r u b))
           = <[reaction_message r := (add_vote u s).2]> (voting_sessions b)
         ∨ voting_sessions (state (on_reaction_add P r u b))
           = delete (reaction_message r) (voting_sessions b)).
Proof.
  destruct (counts_as_vote b r u) eqn:Hc.
  2:{ left. by rewrite on_reaction_add_skipped. }
  rewrite on_reaction_add_cases by done.
  destruct (voting_sessions b !! reaction_message r) as [s|] eqn:Hs; [|by left].
  right. exists s. split; [done|]. cbn zeta.
  destruct (add_vote u s).1; [|by left].
  destruct (confirm_cap b <=? _); [|by left]. run_proj.
  destruct (pin_message_safely_keeps_config P (target_message (add_vote u s).2)
              (set_sessions <[reaction_message r := (add_vote u s).2]> b))
    as (_ & _ & _ & Hsess).
  destruct (result _).
  - right. cbn [voting_sessions set_sessions]. rewrite Hsess.
    cbn [voting_sessions set_sessions]. apply delete_insert_eq.
  - left. by rewrite Hsess.
Qed.

Lemma cleanup_pass_lookup P b k :
  voting_sessions (state (cleanup_pass P b)) !! k =
    match voting_sessions b !! k with
    | Some s => if too_old (loop_time P) s then None else Some s
    | None => None
    end.
Proof.
  rewrite cleanup_pass_state. cbn [voting_sessions set_sessions].
  rewrite lookup_foldl_delete.
  destruct (voting_sessions b !! k) as [s|] eqn:Hk.
  - destruct (too_old (loop_time P) s) eqn:Hold.
    + rewrite bool_decide_eq_true_2; [done|].
      apply list_elem_of_fmap. exists (k, s). split; [done|].
      apply list_elem_of_filter. split; [done|]. by apply elem_of_map_to_list.
    + rewrite bool_decide_eq_false_2; [done|].
      intros [[k' s'] [-> [Hs' Hin%elem_of_map_to_list]%list_elem_of_filter]]%list_elem_of_fmap.
      cbn [fst snd] in *. congruence.
  - rewrite bool_decide_eq_false_2; [done|].
    intros [[k' s'] [-> [Hs' Hin%elem_of_map_to_list]%list_elem_of_filter]]%list_elem_of_fmap.
    cbn [fst] in *. congruence.
Qed.

(** Where a session found after an event comes from: it was there before,
    with the same target, or the event is the trigger message that made it. *)
Lemma handle_session_origin e b k s' :
  voting_sessions (state (handle e b)) !! k = Some s' →
  (∃ s, voting_sessions b !! k = Some s
        ∧ target_message s' = target_message s
        ∧ (count_coherent s → count_coherent s'))
  ∨ (∃ P msg target, e = MessageCreated P msg ∧ k = message_id msg
        ∧ s' = new_session target ∧ confirm_cap b ≠ 0).
Proof.
  destruct e as [P msg|P r u|r u|P]; cbn [handle]; intros Hk.
  - destruct (on_message_sessions P msg b) as [Heq|(target & Hcap & Heq)];
      rewrite Heq in Hk.
    + left. by exists s'.
    + destruct (decide (k = message_id msg)) as [->|Hne].
      * rewrite lookup_insert_eq in Hk. injection Hk as <-.
        right. by exists P, msg, target.
      * rewrite lookup_insert_ne in Hk by done. left. by exists s'.
  - left. destruct (on_reaction_add_sessions P r u b) as [Heq|(s & Hs & [Heq|Heq])];
      rewrite Heq in Hk.
    + by exists s'.
    + destruct (decide (k = reaction_message r)) as [->|Hne].
      * rewrite lookup_insert_eq in Hk. injection Hk as <-.
        exists s. split; [done|]. split; [apply add_vote_target|].
        apply add_vote_coherent.
      * rewrite lookup_insert_ne in Hk by done. by exists s'.
    + destruct (decide (k = reaction_message r)) as [->|Hne].
      * by rewrite lookup_delete_eq in Hk.
      * rewrite lookup_delete_ne in Hk by done. by exists s'.
  - left. destruct (on_reaction_remove_state r u b) as [Heq|(s & Hs & Heq)];
      rewrite Heq in Hk.
    + by exists s'.
    + cbn [voting_sessions set_sessions] in Hk.
      destruct (decide (k = reaction_message r)) as [->|Hne].
      * rewrite lookup_insert_eq in Hk. injection Hk as <-.
        exists s. split; [done|]. split; [apply remove_vote_target|].
        apply remove_vote_coherent.
      * rewrite lookup_insert_ne in Hk by done. by exists s'.
  - left. rewrite cleanup_pass_lookup in Hk.
    destruct (voting_sessions b !! k) as [s|]; [|done].
    destruct (too_old _ _); [done|]. injection Hk as <-. by exists s.
Qed.

(** X12: the handlers of message and reaction events touch no session but
    the one stored under the id the event is about. *)
Theorem handlers_leave_other_sessions_alone (e : Event) (b : PinBot) (k k' : Z) :
  event_key e = Some k' →
  k ≠ k' →
  voting_sessions (state (handle e b)) !! k = voting_sessions b !! k.
Proof.
  intros He Hne. destruct e as [P msg|P r u|r u|P]; cbn [handle event_key] in *;
    [injection He as <-..|discriminate].
  - destruct (on_message_sessions P msg b) as [->|(target & _ & ->)]; [done|].
    by rewrite lookup_insert_ne.
  - destruct (on_reaction_add_sessions P r u b) as [->|(s & _ & [->| ->])]; [done|..].
    + by rewrite lookup_insert_ne.
    + by rewrite lookup_delete_ne.
  - destruct (on_reaction_remove_state r u b) as [->|(s & _ & ->)]; [done|].
    cbn [voting_sessions set_sessions]. by rewrite lookup_insert_ne.
Qed.

(** With sessions 10 and 11 open, a threshold approval on 11 leaves 10. *)
Lemma handlers_leave_other_sessions_alone_witness :
  voting_sessions
    (state (handle (ReactionAdded (Sample.platform 1200%float true) (approval 11) 7)
              (Sample.voting_twice 1))) !! 10
  = voting_sessions (Sample.voting_twice 1) !! 10.
Proof.
  apply (handlers_leave_other_sessions_alone
           (ReactionAdded (Sample.platform 1200%float true) (approval 11) 7)
           (Sample.voting_twice 1) 10 11).
  - reflexivity.
  - discriminate.
Defined.

(** ** Invariants of every run *)

Lemma handle_all_cons e events b :
  state (handle_all (e :: events) b) = state (handle_all events (state (handle e b))).
Proof.
  unfold handle_all. cbn [for_each]. unfold bind.
  destruct (handle e b) as [[[] b1] t1]. run_proj.
  by destruct (for_each events handle b1) as [[[] b2] t2].
Qed.

Lemma handle_all_invariant (Inv : PinBot → Prop) :
  (∀ e b, Inv b → Inv (state (handle e b))) →
  ∀ events b, Inv b → Inv (state (handle_all events b)).
Proof.
  intros Hstep events. induction events as [|e events IH]; intros b Hb.
  - exact Hb.
  - rewrite handle_all_cons. by apply IH, Hstep.
Qed.

Lemma cleanup_pass_keeps_config P b :
  confirm_cap (state (cleanup_pass P b)) = confirm_cap b
  ∧ user (state (cleanup_pass P b)) = user b
  ∧ PIN_COOLDOWN_SECONDS (state (cleanup_pass P b)) = PIN_COOLDOWN_SECONDS b
  ∧ pin_cooldown (state (cleanup_pass P b)) = pin_cooldown b.
Proof. rewrite cleanup_pass_state. by destruct b. Qed.

Lemma handle_keeps_config e b :
  confirm_cap (state (handle e b)) = confirm_cap b
  ∧ user (state (handle e b)) = user b
  ∧ PIN_COOLDOWN_SECONDS (state (handle e b)) = PIN_COOLDOWN_SECONDS b.
Proof.
  destruct e as [P msg|P r u|r u|P]; cbn [handle].
  - rewrite on_message_cases.
    destruct (trigger_reference b msg) as [ref|]; [|done].
    destruct (fetch_message P ref) as [target| |]; [|done..].
    destruct (confirm_cap b =? 0); run_proj; [|by destruct b].
    destruct (pin_message_safely_keeps_config P target b) as (-> & -> & -> & _). done.
  - destruct (counts_as_vote b r u) eqn:Hc.
    2:{ by rewrite on_reaction_add_skipped. }
    rewrite on_reaction_add_cases by done.
    destruct (voting_sessions b !! reaction_message r) as [s|]; [|done]. cbn zeta.
    destruct (add_vote u s).1; [|by destruct b].
    destruct (confirm_cap b <=? _); [|by destruct b]. run_proj.
    destruct (pin_message_safely_keeps_config P (target_message (add_vote u s).2)
                (set_sessions <[reaction_message r := (add_vote u s).2]> b))
      as (H1 & H2 & H3 & _).
    destruct (result _); cbn [confirm_cap user PIN_COOLDOWN_SECONDS set_sessions];
      rewrite H1, H2, H3; by destruct b.
  - destruct (on_reaction_remove_state r u b) as [->|(s & _ & ->)]; [done|].
    by destruct b.
  - destruct (cleanup_pass_keeps_config P b) as (-> & -> & -> & _). done.
Qed.

(** X13: in every state the bot reaches from start-up, whatever events it
    has handled, each stored session has its cached count equal to the
    number of its voters. *)
Theorem stored_sessions_stay_coherent
    (cap bot_user : Z) (events : list Event) (k : Z) (s : VotingSession) :
  voting_sessions (state (handle_all events (PinBot_init cap bot_user))) !! k = Some s →
  vote_count s = Z.of_nat (size (votes s)).
Proof.
  revert k s.
  apply (handle_all_invariant
           (λ b, ∀ k s, voting_sessions b !! k = Some s → count_coherent s)).
  - intros e b Hb k s' Hk.
    destruct (handle_session_origin e b k s' Hk)
      as [(s & Hs & _ & Hco)|(P & msg & target & _ & _ & -> & _)].
    + by apply Hco, (Hb k).
    + apply new_session_coherent.
  - intros k s Hk. cbn in Hk. by rewrite lookup_empty in Hk.
Qed.

(** Cap 3: a trigger, two approvals and a withdrawal; session 10 then has
    one voter and a count of one. *)
Lemma stored_sessions_stay_coherent_witness :
  vote_count (approved_by Sample.target [8])
  = Z.of_nat (size (votes (approved_by Sample.target [8]))).
Proof.
  apply (stored_sessions_stay_coherent 3 999
           [ MessageCreated (Sample.platform 1100%float true) (Sample.trigger 10);
             ReactionAdded (Sample.platform 1200%float true) (approval 10) 7;
             ReactionAdded (Sample.platform 1210%float true) (approval 10) 8;
             ReactionRemoved (approval 10) 7 ]
           10).
  vm_compute. reflexivity.
Defined.

(** X14: a bot started with [confirm_cap = 0] never holds a session,
    whatever events it handles. *)
Theorem zero_cap_bot_never_stores_a_session (bot_user : Z) (events : list Event) :
  voting_sessions (state (handle_all events (PinBot_init 0 bot_user))) = ∅.
Proof.
  apply (handle_all_invariant (λ b, confirm_cap b = 0 ∧ voting_sessions b = ∅)).
  - intros e b [Hcap Hempty]. split.
    + by destruct (handle_keeps_config e b) as (-> & _).
    + apply map_empty. intros k.
      destruct (voting_sessions (state (handle e b)) !! k) as [s'|] eqn:Hk; [|done].
      destruct (handle_session_origin e b k s' Hk)
        as [(s & Hs & _)|(P & msg & target & _ & _ & _ & Hne)]; [|done].
      by rewrite Hempty, lookup_empty in Hs.
  - done.
Qed.

Lemma delivered_messages_cons e events :
  delivered_messages (e :: events)
  = match e with MessageCreated _ msg => [message_id msg] | _ => [] end
    ++ delivered_messages events.
Proof. reflexivity. Qed.

Lemma session_keys_from_messages events : ∀ b k,
  is_Some (voting_sessions (state (handle_all events b)) !! k) →
  is_Some (voting_sessions b !! k) ∨ k ∈ delivered_messages events.
Proof.
  induction events as [|e events IH]; intros b k Hk; [by left|].
  rewrite handle_all_cons in Hk. rewrite delivered_messages_cons.
  destruct (IH _ _ Hk) as [[s' Hs']|Hin].
  - destruct (handle_session_origin e b k s' Hs')
      as [(s & Hs & _)|(P & msg & target & -> & -> & _)].
    + left. by exists s.
    + right. apply elem_of_app. left. apply list_elem_of_singleton. reflexivity.
  - right. apply elem_of_app. by right.
Qed.

(** X15: in every state reached from start-up, each key of the session
    table is the id of a message that was delivered to [on_message]:
    reactions and sweeps never create a session. *)
Theorem sessions_come_from_trigger_messages
    (cap bot_user : Z) (events : list Event) (k : Z) (s : VotingSession) :
  voting_sessions (state (handle_all events (PinBot_init cap bot_user))) !! k = Some s →
  k ∈ delivered_messages events.
Proof.
  intros Hk.
  destruct (session_keys_from_messages events (PinBot_init cap bot_user) k) as [[s0 H0]|H];
    [by exists s| |done].
  cbn in H0. by rewrite lookup_empty in H0.
Qed.

(** The same run as above: session 10 comes from the trigger message 10. *)
Lemma sessions_come_from_trigger_messages_witness :
  10 ∈ delivered_messages
         [ MessageCreated (Sample.platform 1100%float true) (Sample.trigger 10);
           ReactionAdded (Sample.platform 1200%float true) (approval 10) 7;
           ReactionAdded (Sample.platform 1210%float true) (approval 10) 8;
           ReactionRemoved (approval 10) 7 ].
Proof.
  apply (sessions_come_from_trigger_messages 3 999
           [ MessageCreated (Sample.platform 1100%float true) (Sample.trigger 10);
             ReactionAdded (Sample.platform 1200%float true) (approval 10) 7;
             ReactionAdded (Sample.platform 1210%float true) (approval 10) 8;
             ReactionRemoved (approval 10) 7 ]
           10 (approved_by Sample.target [8])).
  vm_compute. reflexivity.
Defined.

(** ** The cooldown table, channel by channel *)

Lemma pin_message_safely_other_channel P m b c :
  c ≠ channel_id m →
  pin_cooldown (state (pin_message_safely P m b)) !! c = pin_cooldown b !! c.
Proof.
  intros Hne. rewrite pin_message_safely_unfold.
  destruct (rate_limited P m b); [|destruct (pin P m)]; run_proj;
    cbn [pin_cooldown set_cooldown touch_cooldown];
    rewrite ?lookup_insert_ne by done; reflexivity.
Qed.

(** X16: a pin attempt in one channel neither changes the last-pin time of
    another channel nor the outcome of a later attempt there. *)
Theorem cooldown_is_per_channel
    (P P' : Platform) (m m' : Message) (b : PinBot) :
  channel_id m' ≠ channel_id m →
  pin_cooldown (state (pin_message_safely P m b)) !! channel_id m'
    = pin_cooldown b !! channel_id m'
  ∧ result (pin_message_safely P' m' (state (pin_message_safely P m b)))
    = result (pin_message_safely P' m' b).
Proof.
  intros Hne.
  pose proof (pin_message_safely_other_channel P m b (channel_id m') Hne) as Hc.
  split; [exact Hc|].
  rewrite !pin_message_safely_result. unfold rate_limited. rewrite Hc.
  by destruct (pin_message_safely_keeps_config P m b) as (-> & _).
Qed.

(** A pin in channel 5 at clock 100, then an attempt in channel 6 one
    second later. *)
Lemma cooldown_is_per_channel_witness :
  pin_cooldown
    (state (pin_message_safely (Sample.platform 100%float true) Sample.target
              (PinBot_init 0 999))) !! 6
    = pin_cooldown (PinBot_init 0 999) !! 6
  ∧ result (pin_message_safely (Sample.platform 101%float true)
              {| message_id := 51; author := 3; content := "agenda";
                 reference := None; channel_id := 6; created_at := 1000%float |}
              (state (pin_message_safely (Sample.platform 100%float true) Sample.target
                        (PinBot_init 0 999))))
    = result (pin_message_safely (Sample.platform 101%float true)
                {| message_id := 51; author := 3; content := "agenda";
                   reference := None; channel_id := 6; created_at := 1000%float |}
                (PinBot_init 0 999)).
Proof.
  apply (cooldown_is_per_channel
           (Sample.platform 100%float true) (Sample.platform 101%float true)
           Sample.target
           {| message_id := 51; author := 3; content := "agenda";
              reference := None; channel_id := 6; created_at := 1000%float |}
           (PinBot_init 0 999)).
  vm_compute. discriminate.
Defined.

(** ** More on the sweep *)

Lemma PinBot_eq (b1 b2 : PinBot) :
  confirm_cap b1 = confirm_cap b2 → user b1 = user b2 →
  voting_sessions b1 = voting_sessions b2 → pin_cooldown b1 = pin_cooldown b2 →
  PIN_COOLDOWN_SECONDS b1 = PIN_COOLDOWN_SECONDS b2 → b1 = b2.
Proof. destruct b1, b2. cbn. by intros -> -> -> -> ->. Qed.

Lemma cleanup_pass_trace (P : Platform) (b : PinBot) :
  trace (cleanup_pass P b) =
    LockAcquire
      :: ((λ k, Log (LogCleanedUp k)) <$>
            (filter (λ kv, too_old (loop_time P) kv.2 = true)
               (map_to_list (voting_sessions b))).*1)
      ++ [LockRelease].
Proof.
  unfold cleanup_pass, with_lock.
  unfold bind at 1. unfold emit at 1.
  unfold bind at 1. unfold bind at 1. unfold get at 1.
  pose proof (for_each_delete_trace
    (filter (λ kv, too_old (loop_time P) kv.2 = true)
       (map_to_list (voting_sessions b))).*1 b) as H.
  destruct (for_each _ _ b) as [[[] b2] t2].
  rewrite trace_run in H. subst t2.
  unfold bind, emit, ret. run_proj. cbn [fst snd app].
  reflexivity.
Qed.

Lemma platform_calls_of_log_lines (keys : list Z) tr :
  List.filter is_platform_call (((λ k, Log (LogCleanedUp k)) <$> keys) ++ tr)
  = List.filter is_platform_call tr.
Proof. induction keys as [|k keys IH]; [reflexivity|]. exact IH. Qed.

(** X17: a sweep calls the platform not at all and leaves the cooldown
    table alone, and a second sweep at the same clock reading changes
    nothing more. *)
Theorem sweep_is_silent_and_idempotent (P : Platform) (b : PinBot) :
  List.filter is_platform_call (trace (cleanup_pass P b)) = []
  ∧ pin_cooldown (state (cleanup_pass P b)) = pin_cooldown b
  ∧ state (cleanup_pass P (state (cleanup_pass P b))) = state (cleanup_pass P b).
Proof.
  split.
  { rewrite cleanup_pass_trace. cbn [List.filter is_platform_call].
    by rewrite platform_calls_of_log_lines. }
  split; [apply cleanup_pass_keeps_config|].
  pose proof (cleanup_pass_keeps_config P (state (cleanup_pass P b)))
    as (H1 & H2 & H3 & H4).
  apply PinBot_eq; try done.
  apply map_eq. intros k. rewrite !cleanup_pass_lookup.
  destruct (voting_sessions b !! k) as [s|]; [|done].
  destruct (too_old (loop_time P) s) eqn:Hold; [done|]. by rewrite Hold.
Qed.

Lemma periodic_cleanup_cons P wakeups b :
  state (periodic_cleanup (P :: wakeups) b)
  = state (periodic_cleanup wakeups (state (cleanup_pass P b))).
Proof.
  unfold periodic_cleanup. cbn [for_each]. unfold bind.
  destruct (cleanup_pass P b) as [[[] b1] t1]. run_proj.
  by destruct (for_each wakeups cleanup_pass b1) as [[[] b2] t2].
Qed.

(** X18: after any number of wake-ups of [periodic_cleanup], a session is
    gone exactly if it was too old at one of them, and the sessions that are
    left are as they were; the loop never adds or edits a session. *)
Theorem periodic_cleanup_removes_what_was_once_too_old
    (wakeups : list Platform) (b : PinBot) (k : Z) :
  voting_sessions (state (periodic_cleanup wakeups b)) !! k =
    match voting_sessions b !! k with
    | Some s =>
      if existsb (λ P, (3600 <? loop_time P - created_at (target_message s))%float)
           wakeups
      then None else Some s
    | None => None
    end.
Proof.
  revert b. induction wakeups as [|P wakeups IH]; intros b.
  - cbn. by destruct (voting_sessions b !! k).
  - rewrite periodic_cleanup_cons, IH, cleanup_pass_lookup. cbn [existsb].
    destruct (voting_sessions b !! k) as [s|]; [|done].
    fold (too_old (loop_time P) s). by destruct (too_old (loop_time P) s).
Qed.

(** X19: the sweep logs one clean-up line for each session it removes and
    for nothing else: between taking and releasing the lock its trace is
    those lines, without repetition. *)
Theorem sweep_logs_exactly_the_removed_sessions (P : Platform) (b : PinBot) :
  ∃ keys : list Z,
    trace (cleanup_pass P b)
      = LockAcquire :: ((λ k, Log (LogCleanedUp k)) <$> keys) ++ [LockRelease]
    ∧ NoDup keys
    ∧ ∀ k, k ∈ keys ↔
        is_Some (voting_sessions b !! k)
        ∧ voting_sessions (state (cleanup_pass P b)) !! k = None.
Proof.
  exists (filter (λ kv, too_old (loop_time P) kv.2 = true)
            (map_to_list (voting_sessions b))).*1.
  split; [apply cleanup_pass_trace|]. split.
  - apply (sublist_NoDup _ (map_to_list (voting_sessions b)).*1).
    + apply NoDup_fst_map_to_list.
    + apply fmap_sublist, sublist_filter.
  - intros k. rewrite cleanup_pass_lookup, list_elem_of_fmap. split.
    + intros [[k' s] [-> [Hold Hin%elem_of_map_to_list]%list_elem_of_filter]].
      cbn [fst snd] in *. rewrite Hin, Hold. split; [by exists s | done].
    + intros [[s Hs] Hgone]. rewrite Hs in Hgone.
      destruct (too_old (loop_time P) s) eqn:Hold; [|done].
      exists (k, s). split; [done|].
      apply list_elem_of_filter. split; [done|]. by apply elem_of_map_to_list.
Qed.

(** ** Order of approvals *)

(** X20: below the cap, the state reached by a run of approvals from
    distinct users does not depend on the order in which they arrive (nor
    on what the platform would have answered). *)
Theorem approvals_below_cap_commute
    (b : PinBot) (k : Z) (t : Message) (evs evs' : list (Platform * Z)) :
  voting_sessions b !! k = Some (new_session t) →
  NoDup evs.*2 →
  user b ∉ evs.*2 →
  Z.of_nat (length evs) < confirm_cap b →
  evs'.*2 ≡ₚ evs.*2 →
  state (approvals k evs' b) = state (approvals k evs b).
Proof.
  intros Hs Hnd Hbot Hlt Hperm.
  destruct (approvals_below_cap k t evs b []) as (-> & _); try done.
  destruct (approvals_below_cap k t evs' b []) as (-> & _); try done.
  - cbn [app]. by rewrite Hperm.
  - by rewrite Hperm.
  - cbn [length]. rewrite <- (length_fmap snd evs'), Hperm, length_fmap. lia.
  - cbn [app]. unfold approved_by. by rewrite Hperm.
Qed.

(** Users 7 and 8 approve the sample session 10 (cap 3), in either order. *)
Lemma approvals_below_cap_commute_witness :
  state (approvals 10 [(Sample.platform 1210%float false, 8);
                       (Sample.platform 1200%float true, 7)] (Sample.voting 3))
  = state (approvals 10 [(Sample.platform 1200%float true, 7);
                         (Sample.platform 1210%float true, 8)] (Sample.voting 3)).
Proof.
  apply (approvals_below_cap_commute (Sample.voting 3) 10 Sample.target
           [(Sample.platform 1200%float true, 7); (Sample.platform 1210%float true, 8)]
           [(Sample.platform 1210%float false, 8); (Sample.platform 1200%float true, 7)]).
  - vm_compute. reflexivity.
  - apply (bool_decide_unpack _). vm_compute. exact I.
  - apply (bool_decide_unpack _). vm_compute. exact I.
  - vm_compute. reflexivity.
  - cbn. apply Permutation_swap.
Defined.

(** ** What gets pinned *)

Lemma pinned_messages_app t1 t2 :
  pinned_messages (t1 ++ t2) = pinned_messages t1 ++ pinned_messages t2.
Proof. unfold pinned_messages. apply flat_map_app. Qed.

Lemma pinned_by_attempt P target b m :
  m ∈ pinned_messages (trace (pin_message_safely P target b)) → m = target.
Proof.
  rewrite pin_message_safely_unfold.
  destruct (rate_limited P target b); [|destruct (pin P target)]; run_proj; cbn;
    intros H; first [by apply list_elem_of_singleton in H | by apply elem_of_nil in H].
Qed.

Lemma pinned_messages_reactions P msg_id emojis :
  pinned_messages (reaction_effects P msg_id emojis) = [].
Proof.
  induction emojis as [|e emojis IH]; [reflexivity|].
  cbn [reaction_effects flat_map]. fold (reaction_effects P msg_id emojis).
  change (AddReaction msg_id e :: ?l) with ([AddReaction msg_id e] ++ l).
  rewrite !pinned_messages_app, IH. by destruct (add_reaction P e).
Qed.

Lemma pinned_messages_log_lines (keys : list Z) :
  pinned_messages ((λ k, Log (LogCleanedUp k)) <$> keys) = [].
Proof. induction keys as [|k keys IH]; [reflexivity|]. exact IH. Qed.

(** A pin call made by one handler run is on the target of a stored session
    or on the message the event itself asked for. *)
Lemma handle_pins e b m :
  m ∈ pinned_messages (trace (handle e b)) →
  (∃ k s, voting_sessions b !! k = Some s ∧ target_message s = m)
  ∨ requested_target b e = Some m.
Proof.
  destruct e as [P msg|P r u|r u|P]; cbn [handle requested_target].
  - rewrite on_message_cases.
    destruct (trigger_reference b msg) as [ref|]; [|by intros ?%elem_of_nil].
    destruct (fetch_message P ref) as [target| |];
      [|by intros ?%elem_of_nil..].
    destruct (confirm_cap b =? 0); run_proj.
    + change (FetchMessage ref :: ?l) with ([FetchMessage ref] ++ l).
      rewrite pinned_messages_app. cbn [pinned_messages flat_map app].
      intros ->%pinned_by_attempt. by right.
    + change (FetchMessage ref :: LockAcquire :: LockRelease :: ?l)
        with ([FetchMessage ref; LockAcquire; LockRelease] ++ l).
      rewrite pinned_messages_app, pinned_messages_reactions.
      by intros ?%elem_of_nil.
  - destruct (counts_as_vote b r u) eqn:Hc.
    2:{ rewrite on_reaction_add_skipped by done. by intros ?%elem_of_nil. }
    rewrite on_reaction_add_cases by done.
    destruct (voting_sessions b !! reaction_message r) as [s|] eqn:Hs;
      [|by intros ?%elem_of_nil]. cbn zeta.
    destruct (add_vote u s).1; [|by intros ?%elem_of_nil].
    destruct (confirm_cap b <=? _); [|by intros ?%elem_of_nil]. run_proj.
    change (LockAcquire :: ?x :: ?l) with ([LockAcquire; x] ++ l).
    rewrite !pinned_messages_app. cbn [pinned_messages flat_map app].
    rewrite app_nil_r. fold (pinned_messages (trace
      (pin_message_safely P (target_message (add_vote u s).2)
         (set_sessions <[reaction_message r := (add_vote u s).2]> b)))).
    intros ->%pinned_by_attempt. left. exists (reaction_message r), s.
    split; [done|]. symmetry. apply add_vote_target.
  - destruct (counts_as_vote b r u) eqn:Hc.
    2:{ rewrite on_reaction_remove_skipped by done. by intros ?%elem_of_nil. }
    rewrite on_reaction_remove_unfold by done.
    destruct (voting_sessions b !! reaction_message r) as [s|];
      [|by intros ?%elem_of_nil]. cbn zeta.
    destruct (remove_vote u s).1; by intros ?%elem_of_nil.
  - rewrite cleanup_pass_trace.
    change (LockAcquire :: ?l) with ([LockAcquire] ++ l).
    rewrite !pinned_messages_app, pinned_messages_log_lines.
    by intros ?%elem_of_nil.
Qed.

(** The target of a session found after an event is that of a session that
    was there before, or the message the event asked for. *)
Lemma handle_session_target e b k s' :
  voting_sessions (state (handle e b)) !! k = Some s' →
  (∃ s, voting_sessions b !! k = Some s ∧ target_message s = target_message s')
  ∨ requested_target b e = Some (target_message s').
Proof.
  intros Hk.
  assert (Hother : (∀ P msg, e ≠ MessageCreated P msg) →
            ∃ s, voting_sessions b !! k = Some s
                 ∧ target_message s = target_message s').
  { intros Hno. destruct (handle_session_origin e b k s' Hk)
      as [(s & Hs & Ht & _)|(P & msg & target & -> & _)].
    - by exists s.
    - by destruct (Hno P msg). }
  destruct e as [P msg|P r u|r u|P]; [|by left; apply Hother..].
  clear Hother. cbn [handle requested_target] in *. rewrite on_message_cases in Hk.
  destruct (trigger_reference b msg) as [ref|]; [|left; by exists s'].
  destruct (fetch_message P ref) as [target| |]; [|left; by exists s'..].
  destruct (confirm_cap b =? 0); rewrite state_run in Hk.
  - destruct (pin_message_safely_keeps_config P target b) as (_ & _ & _ & Hsess).
    rewrite Hsess in Hk. left. by exists s'.
  - cbn [voting_sessions set_sessions] in Hk.
    destruct (decide (k = message_id msg)) as [->|Hne].
    + rewrite lookup_insert_eq in Hk. injection Hk as <-. by right.
    + rewrite lookup_insert_ne in Hk by done. left. by exists s'.
Qed.

Lemma requested_target_user b b' e :
  user b = user b' → requested_target b e = requested_target b' e.
Proof.
  intros Hu. destruct e; [|done..]. cbn [requested_target].
  unfold trigger_reference. by rewrite Hu.
Qed.

Lemma handle_all_trace_cons e events b :
  trace (handle_all (e :: events) b)
  = trace (handle e b) ++ trace (handle_all events (state (handle e b))).
Proof.
  unfold handle_all. cbn [for_each]. unfold bind.
  destruct (handle e b) as [[[] b1] t1]. run_proj.
  by destruct (for_each events handle b1) as [[[] b2] t2].
Qed.

Lemma pins_are_requested events : ∀ (b : PinBot) (known : Message → Prop) m,
  (∀ k s, voting_sessions b !! k = Some s → known (target_message s)) →
  m ∈ pinned_messages (trace (handle_all events b)) →
  known m ∨ ∃ e, e ∈ events ∧ requested_target b e = Some m.
Proof.
  induction events as [|e events IH]; intros b known m Hknown Hm.
  - by apply elem_of_nil in Hm.
  - rewrite handle_all_trace_cons, pinned_messages_app in Hm.
    apply elem_of_app in Hm as [Hm|Hm].
    + destruct (handle_pins e b m Hm) as [(k & s & Hs & <-)|Hreq].
      * left. by apply (Hknown k).
      * right. exists e. split; [apply elem_of_cons; by left | done].
    + destruct (IH (state (handle e b))
                  (λ m, known m ∨ requested_target b e = Some m) m) as [[?|Hreq]|Hlater].
      * intros k s' Hk.
        destruct (handle_session_target e b k s' Hk) as [(s & Hs & <-)|Hreq].
        -- left. by apply (Hknown k).
        -- by right.
      * exact Hm.
      * by left.
      * right. exists e. split; [apply elem_of_cons; by left | done].
      * destruct Hlater as (e' & Hin & Hreq). right. exists e'.
        split; [apply elem_of_cons; by right|].
        rewrite <- Hreq. apply requested_target_user.
        by destruct (handle_keeps_config e b) as (_ & -> & _).
Qed.

(** X21: over any run from start-up, every message the bot calls
    [message.pin()] on is the message that the platform returned for the
    reference of some trigger message of that run; the bot pins nothing
    else. *)
Theorem only_requested_messages_are_pinned
    (cap bot_user : Z) (events : list Event) (m : Message) :
  m ∈ pinned_messages (trace (handle_all events (PinBot_init cap bot_user))) →
  ∃ e, e ∈ events ∧ requested_target (PinBot_init cap bot_user) e = Some m.
Proof.
  intros Hm.
  destruct (pins_are_requested events (PinBot_init cap bot_user) (λ _, False) m)
    as [[]|H]; [|done..].
  intros k s Hk. cbn in Hk. by rewrite lookup_empty in Hk.
Qed.

(** Cap 1: the sample trigger 10, then an approval that pins its target. *)
Lemma only_requested_messages_are_pinned_witness :
  ∃ e,
    e ∈ [ MessageCreated (Sample.platform 1100%float true) (Sample.trigger 10);
          ReactionAdded (Sample.platform 1200%float true) (approval 10) 7 ]
    ∧ requested_target (PinBot_init 1 999) e = Some Sample.target.
Proof.
  apply (only_requested_messages_are_pinned 1 999
           [ MessageCreated (Sample.platform 1100%float true) (Sample.trigger 10);
             ReactionAdded (Sample.platform 1200%float true) (approval 10) 7 ]).
  vm_compute. apply list_elem_of_here.
Defined.

(** X22: the last-pin time that the cooldown test reads for a channel
    changes only when a pin in that channel succeeds, and then to the clock
    reading of that attempt; the entry that a mere read leaves in the
    [defaultdict] changes no later test. *)
Theorem last_pin_time_moves_only_on_success
    (P : Platform) (m : Message) (b : PinBot) (channel : Z) :
  last_pin_time (state (pin_message_safely P m b)) channel =
    if result (pin_message_safely P m b) && bool_decide (channel = channel_id m)
    then loop_time P
    else last_pin_time b channel.
Proof.
  unfold last_pin_time. destruct (decide (channel = channel_id m)) as [->|Hne].
  - rewrite pin_message_safely_cooldown, bool_decide_eq_true_2, andb_true_r by done.
    cbn [default from_option id]. by destruct (result _).
  - rewrite pin_message_safely_other_channel, bool_decide_eq_false_2 by done.
    by rewrite andb_false_r.
Qed.

(** ** Sessions as sets of voters *)

(** X23: on the voter set, [add_vote] is set insertion and [remove_vote]
    set deletion, whether or not the user was there, and the returned flag
    tells exactly whether the set changed. *)
Theorem votes_behave_as_a_set (u : Z) (s : VotingSession) :
  votes (add_vote u s).2 = votes s ∪ {[u]}
  ∧ votes (remove_vote u s).2 = votes s ∖ {[u]}
  ∧ ((add_vote u s).1 = true ↔ votes (add_vote u s).2 ≠ votes s)
  ∧ ((remove_vote u s).1 = true ↔ votes (remove_vote u s).2 ≠ votes s).
Proof.
  unfold add_vote, remove_vote.
  destruct (decide (u ∉ votes s)) as [Hout|Hin%dec_stable].
  - rewrite (decide_False (P := u ∈ votes s)) by done. cbn [fst snd votes].
    split; [done|]. split.
    { apply set_eq. intros x. rewrite elem_of_difference, elem_of_singleton.
      split; [|tauto]. intros Hx. split; [done|]. by intros ->. }
    split; (split; [|done]); [|discriminate].
    intros _ Heq. apply Hout. rewrite <- Heq.
    apply elem_of_union_r, elem_of_singleton. reflexivity.
  - rewrite (decide_True (P := u ∈ votes s)) by done. cbn [fst snd votes].
    split.
    { apply set_eq. intros x. rewrite elem_of_union, elem_of_singleton.
      split; [tauto|]. by intros [?| ->]. }
    split; [done|].
    split; (split; [|done]); [discriminate|].
    intros _ Heq. rewrite <- Heq in Hin.
    apply elem_of_difference in Hin as [_ Hin]. apply Hin, elem_of_singleton.
    reflexivity.
Qed.

(** ** Whose votes are counted *)

Lemma add_vote_voters u s x : x ∈ votes (add_vote u s).2 → x ∈ votes s ∨ x = u.
Proof.
  unfold add_vote. destruct (decide _); cbn [snd votes]; [|by left].
  rewrite elem_of_union, elem_of_singleton. tauto.
Qed.

Lemma remove_vote_voters u s x : x ∈ votes (remove_vote u s).2 → x ∈ votes s.
Proof.
  unfold remove_vote. destruct (decide _); cbn [snd votes]; [|done].
  rewrite elem_of_difference. tauto.
Qed.

(** A voter found after an event was a voter of that session before, or the
    event is that user's approval. *)
Lemma handle_session_voters e b k s' x :
  voting_sessions (state (handle e b)) !! k = Some s' →
  x ∈ votes s' →
  (∃ s, voting_sessions b !! k = Some s ∧ x ∈ votes s) ∨ approval_of b k x e.
Proof.
  intros Hk Hx. destruct e as [P msg|P r u|r u|P]; cbn [handle approval_of] in *.
  - left. destruct (on_message_sessions P msg b) as [Heq|(target & _ & Heq)];
      rewrite Heq in Hk; [by exists s'|].
    destruct (decide (k = message_id msg)) as [->|Hne].
    + rewrite lookup_insert_eq in Hk. injection Hk as <-.
      by apply not_elem_of_empty in Hx.
    + rewrite lookup_insert_ne in Hk by done. by exists s'.
  - destruct (counts_as_vote b r u) eqn:Hc.
    2:{ rewrite on_reaction_add_skipped, state_run in Hk by done. left. by exists s'. }
    apply counts_as_vote_true in Hc as [Hu He].
    destruct (on_reaction_add_sessions P r u b) as [Heq|(s & Hs & [Heq|Heq])];
      rewrite Heq in Hk.
    + left. by exists s'.
    + destruct (decide (k = reaction_message r)) as [->|Hne].
      * rewrite lookup_insert_eq in Hk. injection Hk as <-.
        destruct (add_vote_voters u s x Hx) as [Hold| ->].
        -- left. by exists s.
        -- by right.
      * rewrite lookup_insert_ne in Hk by done. left. by exists s'.
    + destruct (decide (k = reaction_message r)) as [->|Hne].
      * by rewrite lookup_delete_eq in Hk.
      * rewrite lookup_delete_ne in Hk by done. left. by exists s'.
  - left. destruct (on_reaction_remove_state r u b) as [Heq|(s & Hs & Heq)];
      rewrite Heq in Hk; [by exists s'|].
    cbn [voting_sessions set_sessions] in Hk.
    destruct (decide (k = reaction_message r)) as [->|Hne].
    + rewrite lookup_insert_eq in Hk. injection Hk as <-.
      exists s. split; [done|]. by apply (remove_vote_voters u).
    + rewrite lookup_insert_ne in Hk by done. by exists s'.
  - left. rewrite cleanup_pass_lookup in Hk.
    destruct (voting_sessions b !! k) as [s|]; [|done].
    destruct (too_old _ _); [done|]. injection Hk as <-. by exists s.
Qed.

Lemma approval_of_user b b' k x e :
  user b = user b' → approval_of b k x e → approval_of b' k x e.
Proof. intros Hu. destruct e; [done| |done..]. cbn. by rewrite Hu. Qed.

Lemma voters_have_approved events : ∀ (b : PinBot) k s x,
  voting_sessions (state (handle_all events b)) !! k = Some s →
  x ∈ votes s →
  (∃ s0, voting_sessions b !! k = Some s0 ∧ x ∈ votes s0)
  ∨ ∃ e, e ∈ events ∧ approval_of b k x e.
Proof.
  induction events as [|e events IH]; intros b k s x Hk Hx.
  - left. by exists s.
  - rewrite handle_all_cons in Hk.
    destruct (IH _ _ _ _ Hk Hx) as [(s1 & Hs1 & Hx1)|(e' & Hin & Happ)].
    + destruct (handle_session_voters e b k s1 x Hs1 Hx1) as [Hold|Happ]; [by left|].
      right. exists e. split; [apply elem_of_cons; by left | done].
    + right. exists e'. split; [apply elem_of_cons; by right|].
      apply (approval_of_user (state (handle e b))); [|done].
      by destruct (handle_keeps_config e b) as (_ & -> & _).
Qed.

(** X24: in every state reached from start-up, each user recorded in a
    session's voter set is not the bot and has sent, during the run, an
    approval reaction on that session's trigger message; in particular the
    approval reaction the bot attaches itself is never counted. *)
Theorem every_vote_is_an_approval_by_another_user
    (cap bot_user : Z) (events : list Event) (k : Z) (s : VotingSession) (x : Z) :
  voting_sessions (state (handle_all events (PinBot_init cap bot_user))) !! k = Some s →
  x ∈ votes s →
  x ≠ bot_user
  ∧ ∃ P r, ReactionAdded P r x ∈ events
           ∧ reaction_message r = k ∧ emoji r = approve_emoji.
Proof.
  intros Hk Hx.
  destruct (voters_have_approved events _ k s x Hk Hx)
    as [(s0 & Hs0 & _)|(e & Hin & Happ)].
  - cbn in Hs0. by rewrite lookup_empty in Hs0.
  - destruct e as [|P r u| |]; cbn in Happ; try done.
    destruct Happ as (-> & Hr & He & Hne). split; [done|]. by exists P, r.
Qed.

(** Cap 3: the trigger 10, the bot's own approval reaction, then user 7's. *)
Lemma every_vote_is_an_approval_by_another_user_witness :
  7 ≠ 999
  ∧ ∃ P r,
      ReactionAdded P r 7 ∈
        [ MessageCreated (Sample.platform 1100%float true) (Sample.trigger 10);
          ReactionAdded (Sample.platform 1101%float true) (approval 10) 999;
          ReactionAdded (Sample.platform 1200%float true) (approval 10) 7 ]
      ∧ reaction_message r = 10 ∧ emoji r = approve_emoji.
Proof.
  apply (every_vote_is_an_approval_by_another_user 3 999
           [ MessageCreated (Sample.platform 1100%float true) (Sample.trigger 10);
             ReactionAdded (Sample.platform 1101%float true) (approval 10) 999;
             ReactionAdded (Sample.platform 1200%float true) (approval 10) 7 ]
           10 (approved_by Sample.target [7]) 7).
  - vm_compute. reflexivity.
  - cbn [votes approved_by]. apply elem_of_list_to_set, list_elem_of_singleton.
    reflexivity.
Defined.

(** ** Addressing the bot *)

Lemma string_prefix_app (p text : string) :
  String.prefix p text = true ↔ ∃ rest, text = p +:+ rest.
Proof.
  revert text. induction p as [|a p IH]; intros text.
  - split; [|by destruct text]. intros _. by exists text.
  - destruct text as [|c text].
    + split; [done|]. by intros [rest Hrest].
    + cbn [String.prefix String.append]. destruct (Ascii.ascii_dec a c) as [->|Hne].
      * rewrite IH. split; intros [rest Hrest]; exists rest.
        -- cbn. by rewrite Hrest.
        -- cbn in Hrest. by injection Hrest.
      * split; [done|]. intros [rest Hrest]. cbn in Hrest. by injection Hrest.
Qed.

(** X25: the bot treats a message as addressed to it exactly when the text
    begins with the bot's mention, in the plain form [<@id>] or the nickname
    form [<@!id>]; a mention further inside the text does not count. *)
Theorem bot_is_addressed_iff_text_starts_with_mention (bot_id : Z) (text : string) :
  mentions_bot_first bot_id text = true ↔
    ∃ rest, text = "<@" +:+ pretty bot_id +:+ ">" +:+ rest
            ∨ text = "<@!" +:+ pretty bot_id +:+ ">" +:+ rest.
Proof.
  unfold mentions_bot_first. rewrite orb_true_iff, !string_prefix_app.
  assert (Hassoc : ∀ a c d : string, (a +:+ c) +:+ d = a +:+ c +:+ d).
  { intros a c d. induction a as [|x a IHa]; [reflexivity|].
    change (String x ((a +:+ c) +:+ d) = String x (a +:+ c +:+ d)). by f_equal. }
  split.
  - intros [[rest ->]|[rest ->]]; exists rest; [left|right];
      by rewrite !Hassoc.
  - intros [rest [-> | ->]]; [left|right]; exists rest; by rewrite !Hassoc.
Qed.
